(** * Barrier estimation for ozone rotational states: [find_barriers.py]

    A shallow embedding of [src/ozone/find_barriers.py] and the properties
    of its node selectors, reference-table reader, planar interpolation,
    peak extraction and batch driver.

    Conventions of the embedding
    - Python [int] is [Z].  [int(a / n)] (true division followed by
      truncation towards zero) is [Z.quot a n]; for n = 2 and n = 4 the
      two agree whenever |a| < 2^53, where the quotient is an exact
      double.  Beyond that Python rounds the quotient, and from about
      2^1024 on the division raises [OverflowError], which the embedding
      does not represent.  [J / 4] is evaluated for 8 < J < 52 only.
      [J / 2] is capped at 20: below 2^1024 a rounded quotient is far
      above 20 and the cap hides the rounding, so [select_interpolating_Ks]
      agrees with the code for J < 2^1024 and K ≥ 0, and its properties
      are stated there.
    - The two interpolation routines are defined over any carrier of
      numbers with [+], [-], [*] and [/] (class [Numbers]), and are run on
      two carriers: IEEE 754 binary64 with rounding to nearest even, the
      [float] of Python, and exact rationals [Qc].
    - Everywhere else a Python [float] is an exact rational [Qc]: rounding
      is not modelled there, and neither are [nan] and [inf].
    - [np.loadtxt] of a file with a single data row yields a 0-d array,
      which [find_peaks] and slicing reject; a column is a list here, and
      a property that reaches such a file says so in a premise.
    - A path is the list of its components; [pathlib] splits a component
      that contains a separator, so that a property about paths as such
      takes molecule names without one.
    - A raised exception is [Err e]; a returned value is [Ok v].
    - Files are looked up in a finite map from paths to parsed contents;
      every [open] is recorded, in order, in a log. *)

From Stdlib Require Import ZArith QArith Qcanon Lia String Ascii.
From Stdlib Require SpecFloat.
From stdpp Require Import base numbers list strings pretty gmap sorting.

Local Open Scope Z_scope.

(** ** Exceptions and results *)

Inductive error : Set :=
  | IndexError          (* sequence index out of range *)
  | ZeroDivisionError   (* Python division by zero *)
  | FileNotFoundError   (* [open] of a missing file *)
  | TypeError           (* numpy rejects the shape of its arguments *)
  | ValueError          (* numpy rejects an empty array *)
  | WrongSymmetryCode   (* Exception('Wrong symmetry code') *)
  | UnknownPathway      (* Exception('Unknown pathway') *)
  | OutsideModel.       (* numpy result that is no rational number *)

Inductive result (A : Type) : Type :=
  | Ok (a : A)
  | Err (e : error).
Arguments Ok {A} a.
Arguments Err {A} e.

Global Instance error_eq_dec : EqDecision error.
Proof. solve_decision. Defined.

Global Instance result_eq_dec `{EqDecision A} : EqDecision (result A).
Proof. solve_decision. Defined.

Global Instance result_ret : MRet result := λ A a, Ok a.

Global Instance result_bind : MBind result := λ A B f m,
  match m with
  | Ok a => f a
  | Err e => Err e
  end.

(** ** Python sequences *)

(** [l[i]] for an index that is known to be non-negative. *)
Definition py_get {A} (l : list A) (i : nat) : result A :=
  match l !! i with
  | Some a => Ok a
  | None => Err IndexError
  end.

(** Position denoted by a possibly negative index, [None] when out of range. *)
Definition py_position (len : nat) (i : Z) : option nat :=
  if bool_decide (0 ≤ i < Z.of_nat len) then Some (Z.to_nat i)
  else if bool_decide (- Z.of_nat len ≤ i < 0) then Some (Z.to_nat (i + Z.of_nat len))
  else None.

(** [l[i]] for an arbitrary integer index. *)
Definition py_index {A} (l : list A) (i : Z) : result A :=
  match py_position (length l) i with
  | Some n => py_get l n
  | None => Err IndexError
  end.

(** [l[i] = a] for an arbitrary integer index. *)
Definition py_setitem {A} (l : list A) (i : Z) (a : A) : result (list A) :=
  match py_position (length l) i with
  | Some n => Ok (<[n := a]> l)
  | None => Err IndexError
  end.

(** Bound of a slice: negative bounds count from the end, all are clipped. *)
Definition py_slice_bound (len : nat) (i : Z) : nat :=
  if bool_decide (i < 0) then Z.to_nat (Z.max (i + Z.of_nat len) 0)
  else Z.to_nat (Z.min i (Z.of_nat len)).

(** [l[start : stop]]. *)
Definition py_slice {A} (l : list A) (start stop : Z) : list A :=
  let a := py_slice_bound (length l) start in
  let b := py_slice_bound (length l) stop in
  take (b - a) (drop a l).

(** ** Numbers *)

(** An [int] used where a [float] is expected. *)
Definition of_int (z : Z) : Qc := Qc_of_Z z.

(** The arithmetic of the numbers the interpolation computes with:
    Python's [+], [-], [*] and [/], the last raising [ZeroDivisionError] on
    a zero divisor. *)
Class Numbers (F : Type) : Type := {
  py_add : F → F → F;
  py_sub : F → F → F;
  py_mul : F → F → F;
  py_div : F → F → result F
}.

(** Exact rational numbers. *)
Definition Qc_div (a b : Qc) : result Qc :=
  if bool_decide (b = 0%Qc) then Err ZeroDivisionError else Ok (a / b)%Qc.

Global Instance Qc_numbers : Numbers Qc := {|
  py_add := Qcplus;
  py_sub := Qcminus;
  py_mul := Qcmult;
  py_div := Qc_div
|}.

(** IEEE 754 binary64, rounding to nearest even: the [float] of Python.
    The operations are those of the Standard Library's specification of
    floating-point arithmetic, at precision 53 and maximal exponent 1024. *)
Definition binary64 : Type := SpecFloat.spec_float.

(** [float(z)]; an integer beyond the range of the doubles, for which
    Python raises [OverflowError], becomes an infinity. *)
Definition float_of_int (z : Z) : binary64 := SpecFloat.binary_normalize 53 1024 z 0 false.

(** [a / b] on floats: a zero divisor of either sign raises. *)
Definition binary64_div (a b : binary64) : result binary64 :=
  match b with
  | SpecFloat.S754_zero _ => Err ZeroDivisionError
  | _ => Ok (SpecFloat.SFdiv 53 1024 a b)
  end.

Global Instance binary64_numbers : Numbers binary64 := {|
  py_add := SpecFloat.SFadd 53 1024;
  py_sub := SpecFloat.SFsub 53 1024;
  py_mul := SpecFloat.SFmul 53 1024;
  py_div := binary64_div
|}.

(** ** The environment of a run *)

(** A line of a channels file after [split], [int] and [float]: the second
    token is the 1-based channel group, the third the barrier position. *)
Record channel_line : Set := ChannelLine {
  group : Z;
  position : Qc
}.

(** What a file holds: the first column of a table read by [np.loadtxt]
    with [skiprows=1], or the lines of a channels file. *)
Inductive file : Set :=
  | Table (column : list Qc)
  | Channels (channel_lines : list channel_line).

(** A path is the list of its components. *)
Record environment : Type := Environment {
  script_folder : list string;
  files : gmap (list string) file
}.

(** A computation that reads the environment, may raise, and logs the
    files it opens. *)
Definition io (A : Type) : Type := environment → list (list string) * result A.

Global Instance io_ret : MRet io := λ A a _, ([], Ok a).

Global Instance io_bind : MBind io := λ A B f m env,
  match m env with
  | (log, Ok a) => let '(log', r) := f a env in (log ++ log', r)
  | (log, Err e) => (log, Err e)
  end.

Definition lift {A} (r : result A) : io A := λ _, ([], r).

Definition get_script_folder : io (list string) :=
  λ env, ([], Ok (script_folder env)).

(** [os.path.exists]. *)
Definition path_exists (p : list string) : io bool :=
  λ env, ([], Ok (bool_decide (is_Some (files env !! p)))).

(** [np.loadtxt(p, skiprows=1, usecols=[0])]: the first column of the
    data rows.  numpy returns a 0-d array for a single data row; the
    column is a list of one element here. *)
Definition loadtxt (p : list string) : io (list Qc) :=
  λ env, ([p], match files env !! p with
               | Some (Table column) => Ok column
               | Some (Channels _) => Err OutsideModel
               | None => Err FileNotFoundError
               end).

(** [open(p).readlines()] of a channels file. *)
Definition readlines (p : list string) : io (list channel_line) :=
  λ env, ([p], match files env !! p with
               | Some (Channels channel_lines) => Ok channel_lines
               | Some (Table _) => Err OutsideModel
               | None => Err FileNotFoundError
               end).

(** A loop that threads an accumulator through the elements of a list. *)
Fixpoint io_foldl {A B} (f : A → B → io A) (a : A) (l : list B) : io A :=
  match l with
  | [] => mret a
  | b :: l' => a' ← f a b; io_foldl f a' l'
  end.

(** ** Library routines the program calls *)

Definition at_index (x : list Qc) (i : nat) : Qc := default 0%Qc (x !! i).

(** The inner [while] of scipy's [_local_maxima_1d]: starting at [i_ahead],
    advance while [i_ahead < i_max] and [x[i_ahead] == x[i]].  [gap] bounds
    the number of iterations; [i_max - i_ahead] is enough. *)
Fixpoint plateau_end (gap : nat) (x : list Qc) (i_max : nat) (xi : Qc) (i_ahead : nat) : nat :=
  match gap with
  | O => i_ahead
  | S gap' =>
      if bool_decide (i_ahead < i_max)%nat && bool_decide (at_index x i_ahead = xi)
      then plateau_end gap' x i_max xi (S i_ahead)
      else i_ahead
  end.

(** The outer [while i < i_max] of [_local_maxima_1d]; every iteration
    increases [i], so [i_max - i] iterations are enough. *)
Fixpoint local_maxima_loop (fuel : nat) (x : list Qc) (i_max i : nat) : list nat :=
  match fuel with
  | O => []
  | S fuel' =>
      if bool_decide (i < i_max)%nat then
        if bool_decide (at_index x (i - 1) < at_index x i)%Qc then
          let i_ahead := plateau_end (i_max - (i + 1)) x i_max (at_index x i) (i + 1) in
          if bool_decide (at_index x i_ahead < at_index x i)%Qc then
            let left_edge := i in
            let right_edge := (i_ahead - 1)%nat in
            ((left_edge + right_edge) / 2)%nat
              :: local_maxima_loop fuel' x i_max (i_ahead + 1)
          else local_maxima_loop fuel' x i_max (i + 1)
        else local_maxima_loop fuel' x i_max (i + 1)
      else []
  end.

(** [scipy.signal._peak_finding_utils._local_maxima_1d]: the indices of the
    local maxima of [x], a flat maximum counted once at its midpoint. *)
Definition local_maxima_1d (x : list Qc) : list nat :=
  let i_max := (length x - 1)%nat in
  local_maxima_loop (i_max - 1) x i_max 1.

(** [scipy.signal.find_peaks(x, height=(hmin, hmax))[0]]: the local maxima
    whose height lies in the closed band. *)
Definition find_peaks (x : list Qc) (hmin hmax : Qc) : list nat :=
  filter (λ p, hmin ≤ at_index x p ∧ at_index x p ≤ hmax)%Qc (local_maxima_1d x).

(** [numpy.polynomial.Polynomial.fit(xs, ys, 2).convert().coef]: the
    coefficients, lowest degree first, of the least-squares parabola.  Three
    samples with pairwise distinct abscissae determine it: it is the parabola
    through them, computed here by divided differences in exact arithmetic;
    numpy solves the least-squares problem in floating point.  numpy rejects
    an empty [xs] with [ValueError] (it has no domain) and, after that,
    arguments of different lengths with [TypeError]; the remaining shapes
    are rank deficient and not modelled. *)
Definition polynomial_fit_2 (xs ys : list Qc) : result (list Qc) :=
  match xs, ys with
  | [x0; x1; x2], [y0; y1; y2] =>
      if bool_decide (x0 ≠ x1 ∧ x1 ≠ x2 ∧ x0 ≠ x2) then
        let d01 := ((y1 - y0) / (x1 - x0))%Qc in
        let d12 := ((y2 - y1) / (x2 - x1))%Qc in
        let c := ((d12 - d01) / (x2 - x0))%Qc in
        let b := (d01 - c * (x0 + x1))%Qc in
        let a := (y0 - b * x0 - c * x0 * x0)%Qc in
        Ok [a; b; c]
      else Err OutsideModel
  | _, _ =>
      if bool_decide (length xs = 0%nat) then Err ValueError
      else if bool_decide (length xs ≠ length ys) then Err TypeError
      else Err OutsideModel
  end.

(** ** The program *)

(** [load_grid], lines 10-14. *)
Definition load_grid (root_path : list string) : io (list Qc) :=
  let grid_path := root_path ++ ["rho_info.txt"] in
  grid ← loadtxt grid_path;
  mret grid.

(** [interpolate_energies_2d], lines 17-21.  numpy divides by a zero
    leading coefficient without raising and yields [inf] or [nan], or,
    the fit being solved in floating point, a quotient of rounding
    residues: none of them is a value of the embedding. *)
Definition interpolate_energies_2d (grid energies : list Qc) : result Qc :=
  parabola_coefs ← polynomial_fit_2 grid energies;
  c1 ← py_get parabola_coefs 1;
  c2 ← py_get parabola_coefs 2;
  if bool_decide (c2 = 0%Qc) then Err OutsideModel
  else
    let barrier_position := (- c1 / 2 / c2)%Qc in
    Ok barrier_position.

(** The path of the energies file of a state, line 26. *)
Definition energies_path_of (root_path : list string) (J K sym : Z) : list string :=
  root_path ++ ["J_" +:+ pretty J; "K_" +:+ pretty K; "symmetry_" +:+ pretty sym;
                "basis"; "energies_2d.fwc"].

(** [find_barrier], lines 24-32. *)
Definition find_barrier (root_path : list string) (J K sym : Z) (grid : list Qc) : io Qc :=
  let energies_path := energies_path_of root_path J K sym in
  found ← path_exists energies_path;
  if (found : bool) then
    energies ← loadtxt energies_path;
    let peaks := find_peaks energies (of_int (-5000)) (of_int 5000) in
    p ← lift (py_get peaks 0);
    let p := Z.of_nat p in
    barrier ← lift (interpolate_energies_2d (py_slice grid (p - 1) (p + 2))
                                            (py_slice energies (p - 1) (p + 2)));
    mret barrier
  else mret 0%Qc.

(** [select_interpolating_Js], lines 35-44. *)
Definition select_interpolating_Js (J : Z) : list Z :=
  if bool_decide (J ≤ 8) then [4; 8]
  else if bool_decide (52 ≤ J) then [52; 56]
  else
    let J_low := Z.quot J 4 * 4 in
    let J_high := J_low + 4 in
    [J_low; J_high].

(** [select_interpolating_Ks], lines 47-56.  [int(J / step_K)] and
    [int(K / step_K)] are [Z.quot]: the function agrees with the code for
    J < 2^1024 and K ≥ 0 (see the conventions); K is divided only when
    K < 18. *)
Definition select_interpolating_Ks (J K : Z) : list Z :=
  let step_K := 2 in
  let max_K := Z.min (Z.quot J step_K) 20 in
  if bool_decide (max_K - step_K ≤ K) then [Z.max (max_K - step_K) 0; max_K]
  else
    let K_low := Z.quot K step_K * step_K in
    let K_high := K_low + step_K in
    [K_low; K_high].

(** [get_symmetry_letter], lines 59-66. *)
Definition get_symmetry_letter (sym_code : Z) : result string :=
  if bool_decide (sym_code = 0) then Ok "S"
  else if bool_decide (sym_code = 1) then Ok "A"
  else Err WrongSymmetryCode.

(** ['{:02}'.format(n)]: the decimal numeral, sign included, padded with
    zeros to two characters. *)
Definition format_02 (n : Z) : string :=
  let s := pretty n in
  if bool_decide (String.length s < 2)%nat then "0" +:+ s else s.

(** [get_channels_file_path], lines 69-76; the folder of the script is an
    argument.  Each operand of [/] is one component of the path, as it is
    for a molecule name without a separator. *)
Definition get_channels_file_path (script_folder_path : list string)
    (molecule : string) (J K sym : Z) : result (list string) :=
  let molecule_folder := molecule +:+ "_full" in
  let J_folder := "J" +:+ format_02 J in
  symmetry_letter ← get_symmetry_letter sym;
  let K_folder := "K" +:+ format_02 K +:+ symmetry_letter in
  Ok (script_folder_path ++ ["script_data"; molecule_folder; J_folder; K_folder; "channels.dat"]).

(** The [for line in channel_lines] loop of [load_lowest_barrier_info],
    lines 84-91, with its [break]. *)
Fixpoint scan_channel_lines (channel_lines : list channel_line)
    (barrier_positions : list Qc) : result (list Qc) :=
  match channel_lines with
  | [] => Ok barrier_positions
  | line :: channel_lines' =>
      let group_ind := group line - 1 in
      let barrier_position := position line in
      current ← py_index barrier_positions group_ind;
      barrier_positions' ←
        (if bool_decide (current = 0%Qc)
         then py_setitem barrier_positions group_ind barrier_position
         else Ok barrier_positions);
      if forallb (λ position, bool_decide (0 < position)%Qc) barrier_positions'
      then Ok barrier_positions'
      else scan_channel_lines channel_lines' barrier_positions'
  end.

(** [load_lowest_barrier_info], lines 79-92. *)
Definition load_lowest_barrier_info (channels_file_path : list string) : io (list Qc) :=
  channel_lines ← readlines channels_file_path;
  let barrier_positions := replicate 3 0%Qc in
  lift (scan_channel_lines channel_lines barrier_positions).

(** [linear_interpolation_1d], lines 95-97, over any numbers. *)
Definition linear_interpolation_1d `{Numbers F} (point1 point2 : list F) (query_x : F) :
    result F :=
  y2 ← py_get point2 1;
  y1 ← py_get point1 1;
  x2 ← py_get point2 0;
  x1 ← py_get point1 0;
  slope ← py_div (py_sub y2 y1) (py_sub x2 x1);
  Ok (py_add (py_mul slope (py_sub query_x x1)) y1).

(** [linear_interpolation_2d], lines 100-105, over any numbers. *)
Definition linear_interpolation_2d `{Numbers F} (point1 point2 point3 query_point : list F) :
    result F :=
  interp1 ← (p1 ← mapM (py_get point1) [0; 2]%nat;
             p2 ← mapM (py_get point2) [0; 2]%nat;
             q0 ← py_get query_point 0;
             linear_interpolation_1d p1 p2 q0);
  interp2 ← (q1 ← py_get query_point 1;
             linear_interpolation_1d (drop 1 point1) (drop 1 point3) q1);
  z1 ← py_get point1 2;
  Ok (py_sub (py_add interp1 interp2) z1).

(** The block "Load known barrier positions for interpolation" of
    [interpolate_barrier_positions_JK], lines 113-119.  The two nested
    [for] loops over [range(len(Js_interp))] and [range(len(Ks_interp))]
    fill [barrier_positions_known[i][j]] in row-major order; they are the
    nested [mapM] over the two brackets. *)
Definition load_known_barrier_positions (molecule : string)
    (Js_interp Ks_interp : list Z) (symmetry : Z) : io (list (list (list Qc))) :=
  script_folder_path ← get_script_folder;
  mapM (λ J_i,
    mapM (λ K_j,
      channels_file_path ←
        lift (get_channels_file_path script_folder_path molecule J_i K_j symmetry);
      lowest_barriers ← load_lowest_barrier_info channels_file_path;
      mret lowest_barriers) Ks_interp) Js_interp.

(** The body of the loop of the block "Interpolate barrier positions
    (B, A, S)", lines 124-127. *)
Definition interpolate_channel (Js_interp Ks_interp : list Z)
    (barrier_positions_known : list (list (list Qc))) (J K : Z) (i : nat) : result Qc :=
  J_0 ← py_get Js_interp 0;
  K_0 ← py_get Ks_interp 0;
  known_0 ← py_get barrier_positions_known 0;
  known_00 ← py_get known_0 0;
  v_00 ← py_get known_00 i;
  let point1 := [of_int J_0; of_int K_0; v_00] in
  J_1 ← py_get Js_interp 1;
  known_1 ← py_get barrier_positions_known 1;
  known_10 ← py_get known_1 0;
  v_10 ← py_get known_10 i;
  let point2 := [of_int J_1; of_int K_0; v_10] in
  K_1 ← py_get Ks_interp 1;
  known_01 ← py_get known_0 1;
  v_01 ← py_get known_01 i;
  let point3 := [of_int J_0; of_int K_1; v_01] in
  linear_interpolation_2d point1 point2 point3 [of_int J; of_int K].

(** The block "Interpolate barrier positions (B, A, S)", lines 121-127. *)
Definition interpolate_known_barrier_positions (Js_interp Ks_interp : list Z)
    (barrier_positions_known : list (list (list Qc))) (J K : Z) : result (list Qc) :=
  known_0 ← py_get barrier_positions_known 0;
  known_00 ← py_get known_0 0;
  mapM (interpolate_channel Js_interp Ks_interp barrier_positions_known J K)
       (seq 0 (length known_00)).

(** [interpolate_barrier_positions_JK], lines 108-129. *)
Definition interpolate_barrier_positions_JK (molecule : string) (J K symmetry : Z) : io (list Qc) :=
  let Js_interp := select_interpolating_Js J in
  J_low ← lift (py_get Js_interp 0);
  let Ks_interp := select_interpolating_Ks J_low K in
  barrier_positions_known ←
    load_known_barrier_positions molecule Js_interp Ks_interp symmetry;
  lift (interpolate_known_barrier_positions Js_interp Ks_interp
          barrier_positions_known J K).

(** [get_pathway_index], lines 132-141. *)
Definition get_pathway_index (pathway_letter : string) : result nat :=
  if bool_decide (pathway_letter = "B") then Ok 0%nat
  else if bool_decide (pathway_letter = "A") then Ok 1%nat
  else if bool_decide (pathway_letter = "S") then Ok 2%nat
  else Err UnknownPathway.

(** The values [main] fixes in its first lines. *)
Record parameters : Type := Parameters {
  root_path : list string;
  molecule : string;
  sym : Z;
  pathway : string;
  Js : list Z;
  Ks : list Z
}.

(** [barriers[K_ind, J_ind] = v]. *)
Definition set_cell (barriers : list (list Qc)) (K_ind J_ind : nat) (v : Qc) : list (list Qc) :=
  alter (λ row, <[J_ind := v]> row) K_ind barriers.

(** The value of [barriers[K_ind, J_ind]], when the cell exists. *)
Definition get_cell (barriers : list (list Qc)) (K_ind J_ind : nat) : option Qc :=
  row ← barriers !! K_ind; row !! J_ind.

(** The body of the inner loop of [main], lines 157-166. *)
Definition main_cell (run : parameters) (grid : list Qc) (J : Z) (J_ind : nat)
    (barriers : list (list Qc)) (K_ind : nat) : io (list (list Qc)) :=
  K ← lift (py_get (Ks run) K_ind);
  if bool_decide (J < K) then mret barriers
  else if bool_decide (molecule run = "666") then
    barrier ← find_barrier (root_path run) J K (sym run) grid;
    mret (set_cell barriers K_ind J_ind barrier)
  else
    let K_sym := if bool_decide (K `mod` 2 = 0) then sym run else 1 - sym run in
    barrier_positions ← interpolate_barrier_positions_JK (molecule run) J K K_sym;
    pathway_index ← lift (get_pathway_index (pathway run));
    barrier ← lift (py_get barrier_positions pathway_index);
    mret (set_cell barriers K_ind J_ind barrier).

(** The body of the outer loop of [main], lines 155-166. *)
Definition main_column (run : parameters) (grid : list Qc)
    (barriers : list (list Qc)) (J_ind : nat) : io (list (list Qc)) :=
  J ← lift (py_get (Js run) J_ind);
  io_foldl (main_cell run grid J J_ind) barriers (seq 0 (length (Ks run))).

(** [main], lines 152-166, for given run parameters; the result is the
    matrix handed to [np.savetxt]. *)
Definition main_with (run : parameters) : io (list (list Qc)) :=
  let barriers := replicate (length (Ks run)) (replicate (length (Js run)) 0%Qc) in
  grid ← load_grid (root_path run);
  io_foldl (main_column run grid) barriers (seq 0 (length (Js run))).

(** [range(start, stop, step)] for a positive step, [count] elements. *)
Definition py_range (start step : Z) (count : nat) : list Z :=
  (λ i, start + step * Z.of_nat i) <$> seq 0 count.

(** The parameters written in [main], lines 145-150. *)
Definition main_parameters : parameters := {|
  root_path := ["/global/cfs/cdirs/m409/gaidai/ozone/dev/666"];
  molecule := "868";
  sym := 0;
  pathway := "S";
  Js := py_range 0 2 17 ++ py_range 36 4 8;
  Ks := py_range 0 2 11
|}.

Definition main : io (list (list Qc)) := main_with main_parameters.

(** ** The property of the output matrix *)

(** Every cell of the matrix whose K exceeds its J holds 0. *)
Definition unphysical_cells_zero (run : parameters) (barriers : list (list Qc)) : Prop :=
  ∀ K_ind J_ind K J,
    Ks run !! K_ind = Some K → Js run !! J_ind = Some J → J < K →
    get_cell barriers K_ind J_ind = Some 0%Qc.

(** ** Changing the environment *)

(** The environment in which the file at path [p] holds [f]. *)
Definition with_file (env : environment) (p : list string) (f : file) : environment :=
  {| script_folder := script_folder env; files := <[p := f]> (files env) |}.

(** ** Reference descriptions of the channels scan *)

(** The first value a channel group carries, in file order, among those
    that satisfy [keep]; 0 when there is none. *)
Fixpoint first_value (keep : Qc → bool) (channel : Z)
    (channel_lines : list channel_line) : Qc :=
  match channel_lines with
  | [] => 0%Qc
  | line :: channel_lines' =>
      if bool_decide (group line = channel) && keep (position line)
      then position line
      else first_value keep channel channel_lines'
  end.

(** The first non-zero value of a channel group. *)
Definition first_nonzero : Z → list channel_line → Qc :=
  first_value (λ v, bool_decide (v ≠ 0%Qc)).

(** The first strictly positive value of a channel group, in the words of
    the specification. *)
Definition first_positive : Z → list channel_line → Qc :=
  first_value (λ v, bool_decide (0 < v)%Qc).

(** The channel a group identifier selects: [barrier_positions[group - 1]]
    with Python's negative indices, so that 0, -1 and -2 select the
    channels 3, 2 and 1. *)
Definition wrap_group (line : channel_line) : channel_line :=
  {| group := if bool_decide (group line ≤ 0) then group line + 3 else group line;
     position := position line |}.

(** ** Reference descriptions of the interpolation and of the output *)

(** The value, [dJ] and [dK] away from the node it passes through with the
    value [v_00], of the plane that takes the value [v_10] four units of J
    further and the value [v_01] two units of K further. *)
Definition plane_value (v_00 v_10 v_01 : Qc) (dJ dK : Z) : Qc :=
  (v_00 + (v_10 - v_00) / of_int 4 * of_int dJ + (v_01 - v_00) / of_int 2 * of_int dK)%Qc.

(** The matrix has one row for every K and one column for every J. *)
Definition matrix_shape (run : parameters) (barriers : list (list Qc)) : Prop :=
  length barriers = length (Ks run)
  ∧ Forall (λ row, length row = length (Js run)) barriers.

(** The cell of the K at [K_ind] and the J at [J_ind], when K ≤ J, holds
    the value the program computes for this J and this K: the barrier
    found by [find_barrier] for molecule 666, the interpolated position of
    the pathway otherwise. *)
Definition physical_cell_computed (run : parameters) (grid : list Qc) (env : environment)
    (barriers : list (list Qc)) (K_ind J_ind : nat) : Prop :=
  ∀ K J, Ks run !! K_ind = Some K → Js run !! J_ind = Some J → K ≤ J →
    ∃ v, get_cell barriers K_ind J_ind = Some v
      ∧ if bool_decide (molecule run = "666")
        then (find_barrier (root_path run) J K (sym run) grid env).2 = Ok v
        else ∃ barrier_positions pathway_index,
          (interpolate_barrier_positions_JK (molecule run) J K
             (if bool_decide (K `mod` 2 = 0) then sym run else 1 - sym run) env).2
          = Ok barrier_positions
          ∧ get_pathway_index (pathway run) = Ok pathway_index
          ∧ barrier_positions !! pathway_index = Some v.

(** The string holds a path separator, at which [pathlib] splits a
    component. *)
Fixpoint has_separator (s : string) : bool :=
  match s with
  | EmptyString => false
  | String c s' => bool_decide (c = "/"%char) || has_separator s'
  end.

(** * Properties *)

(** Closed equations between computed values are decided by evaluation. *)
Ltac by_evaluation :=
apply (bool_decide_unpack _); vm_compute; exact I.

(** ** Node selectors *)

Section selectors.

(** The J bracket is four wide and starts at 4 or above. *)
Lemma select_interpolating_Js_shape J :
  ∃ J_low, select_interpolating_Js J = [J_low; J_low + 4] ∧ 4 ≤ J_low.
Proof.
  unfold select_interpolating_Js.
  repeat case_bool_decide.
  - exists 4. split; [reflexivity | lia].
  - exists 52. split; [reflexivity | lia].
  - exists (J ÷ 4 * 4). split; [reflexivity |].
    assert (8 ≤ J ÷ 4 * 4); [| lia].
    pose proof (Z.quot_le_mono 9 J 4 ltac:(lia) ltac:(lia)) as Hq.
    change (9 ÷ 4) with 2 in Hq. lia.
Qed.

Lemma quot_2_ge J : 4 ≤ J → 2 ≤ J ÷ 2.
Proof.
  intros HJ.
  pose proof (Z.quot_le_mono 4 J 2 ltac:(lia) ltac:(lia)) as Hq.
  change (4 ÷ 2) with 2 in Hq. exact Hq.
Qed.

Lemma quot_2_lt J : 0 ≤ J < 4 → 0 ≤ J ÷ 2 < 2.
Proof.
  intros HJ. split; [apply Z.quot_pos; lia |].
  apply Z.quot_lt_upper_bound; lia.
Qed.

(** From a J of at least 4, the K bracket is two wide for every K. *)
Lemma select_interpolating_Ks_shape J K :
  4 ≤ J →
  ∃ K_low, select_interpolating_Ks J K = [K_low; K_low + 2].
Proof.
  intros HJ%quot_2_ge. unfold select_interpolating_Ks. cbv zeta.
  case_bool_decide.
  - exists (Z.min (J ÷ 2) 20 - 2). f_equal; [lia | f_equal; lia].
  - eexists. reflexivity.
Qed.

(** C1, as stated, fails: for J = 0 and K = 0 the bracket is (0, 0),
    of width 0 and not 2. *)
Lemma select_interpolating_Ks_width_counterexample :
  0 ≤ 0 ≤ 0 ∧
  select_interpolating_Ks 0 0 = [0; 0] ∧
  ¬ ∃ K_low K_high,
      select_interpolating_Ks 0 0 = [K_low; K_high] ∧
      K_high - K_low = 2 ∧ 0 ≤ K_low ∧ K_high ≤ Z.min (0 ÷ 2) 20.
Proof.
  split; [lia |]. split; [reflexivity |].
  intros (K_low & K_high & Heq & Hwidth & _).
  vm_compute in Heq. injection Heq as <- <-. lia.
Qed.

(** C1, amended: for 0 ≤ K ≤ J < 2^1024 the bracket (K_low, K_high) has
    0 ≤ K_low and K_high ≤ min(J/2, 20); its width is 2 exactly when
    J ≥ 4, and is J/2 (0 or 1) for J < 4.  The bound on J keeps [J / 2]
    within the doubles: beyond it the code raises [OverflowError] and
    returns no bracket. *)
Theorem select_interpolating_Ks_bracket J K :
  0 ≤ K ≤ J → J < 2 ^ 1024 →
  ∃ K_low K_high,
    select_interpolating_Ks J K = [K_low; K_high] ∧
    0 ≤ K_low ∧ K_high ≤ Z.min (J ÷ 2) 20 ∧
    (K_high - K_low = 2 ↔ 4 ≤ J) ∧
    (J < 4 → K_high - K_low = J ÷ 2).
Proof.
  intros [HK HJ] _. unfold select_interpolating_Ks. cbv zeta.
  destruct (decide (4 ≤ J)) as [H4|H4].
  - pose proof (quot_2_ge J H4) as Hq.
    case_bool_decide as Hcmp.
    + eexists _, _. split; [reflexivity |]. lia.
    + eexists _, _. split; [reflexivity |].
      assert (0 ≤ K ÷ 2) by (apply Z.quot_pos; lia).
      assert (K ÷ 2 * 2 ≤ K).
      { pose proof (Z.quot_rem' K 2) as Hqr.
        pose proof (Z.rem_nonneg K 2 ltac:(lia) HK). lia. }
      lia.
  - pose proof (quot_2_lt J ltac:(lia)) as Hq.
    rewrite bool_decide_eq_true_2 by lia.
    eexists _, _. split; [reflexivity |]. lia.
Qed.

Lemma select_interpolating_Ks_bracket_witness :
  0 ≤ 3 ≤ 10 ∧ 10 < 2 ^ 1024 ∧
  ∃ K_low K_high,
    select_interpolating_Ks 10 3 = [K_low; K_high] ∧
    0 ≤ K_low ∧ K_high ≤ Z.min (10 ÷ 2) 20 ∧
    (K_high - K_low = 2 ↔ 4 ≤ 10) ∧
    (10 < 4 → K_high - K_low = 10 ÷ 2).
Proof.
  split; [lia |]. split; [reflexivity |].
  apply (select_interpolating_Ks_bracket 10 3); [lia | reflexivity].
Defined.

(** C4: for every J ≥ 0 the bracket (J_low, J_high) has
    J_high - J_low = 4, and for 8 < J < 52 it encloses J. *)
Theorem select_interpolating_Js_bracket J :
  0 ≤ J →
  ∃ J_low J_high,
    select_interpolating_Js J = [J_low; J_high] ∧
    J_high - J_low = 4 ∧
    (8 < J < 52 → J_low ≤ J ≤ J_high).
Proof.
  intros HJ. unfold select_interpolating_Js.
  repeat case_bool_decide.
  - exists 4, 8. split; [reflexivity |]. lia.
  - exists 52, 56. split; [reflexivity |]. lia.
  - eexists _, _. split; [reflexivity |]. split; [lia |]. intros _.
    pose proof (Z.quot_rem' J 4) as Hqr.
    pose proof (Z.rem_bound_pos J 4 HJ ltac:(lia)). lia.
Qed.

Lemma select_interpolating_Js_bracket_witness :
  0 ≤ 10 ∧
  ∃ J_low J_high,
    select_interpolating_Js 10 = [J_low; J_high] ∧
    J_high - J_low = 4 ∧
    (8 < 10 < 52 → J_low ≤ 10 ≤ J_high).
Proof.
  split; [lia |]. apply (select_interpolating_Js_bracket 10). lia.
Defined.

End selectors.

(** ** Planar interpolation *)

Section interpolation.

(** A bracket of distinct abscissae interpolates without raising. *)
Lemma linear_interpolation_1d_ok (x1 y1 x2 y2 query_x : Qc) :
  (x2 - x1 ≠ 0)%Qc →
  linear_interpolation_1d [x1; y1] [x2; y2] query_x
  = Ok ((y2 - y1) / (x2 - x1) * (query_x - x1) + y1)%Qc.
Proof.
  intros Hx. unfold linear_interpolation_1d. cbn. unfold Qc_div.
  by rewrite bool_decide_eq_false_2.
Qed.

(** C5: over any numbers, and so for the floats of Python with their
    rounding, the 1D interpolation between (x1, y1) and (x2, y2) at [query_x]
    is (y2 - y1) / (x2 - x1) * (query_x - x1) + y1, and the planar
    interpolation is the 1D interpolation along J (first coordinate, values
    of points 1 and 2) plus the 1D interpolation along K (second coordinate,
    values of points 1 and 3) minus the value of point 1; the second
    coordinate of point 2 and the first of point 3 are not read.  For the
    corners (0,0,10), (10,0,30), (0,10,20) and the query (5,5) the terms
    are 20 and 15 and the result is 25, in binary64 and in exact
    arithmetic; away from the middle, at the query (2,7), the terms are 14
    and 17 and the result is 21. *)
Theorem linear_interpolation_2d_planar :
  (∀ (F : Type) (numbers : Numbers F) (x1 y1 x2 y2 query_x : F),
     linear_interpolation_1d [x1; y1] [x2; y2] query_x
     = (slope ← py_div (py_sub y2 y1) (py_sub x2 x1);
        Ok (py_add (py_mul slope (py_sub query_x x1)) y1)))
  ∧ (∀ (F : Type) (numbers : Numbers F)
       (J0 K0 v0 J1 K0' v1 J0' K1 v2 query_J query_K : F),
     linear_interpolation_2d [J0; K0; v0] [J1; K0'; v1] [J0'; K1; v2] [query_J; query_K]
     = (along_J ← linear_interpolation_1d [J0; v0] [J1; v1] query_J;
        along_K ← linear_interpolation_1d [K0; v0] [K1; v2] query_K;
        Ok (py_sub (py_add along_J along_K) v0)))
  ∧ linear_interpolation_1d (float_of_int <$> [0; 10]) (float_of_int <$> [10; 30])
      (float_of_int 5)
    = Ok (float_of_int 20)
  ∧ linear_interpolation_1d (float_of_int <$> [0; 10]) (float_of_int <$> [10; 20])
      (float_of_int 5)
    = Ok (float_of_int 15)
  ∧ linear_interpolation_2d
      (float_of_int <$> [0; 0; 10]) (float_of_int <$> [10; 0; 30])
      (float_of_int <$> [0; 10; 20]) (float_of_int <$> [5; 5])
    = Ok (float_of_int 25)
  ∧ linear_interpolation_1d (float_of_int <$> [0; 10]) (float_of_int <$> [10; 30])
      (float_of_int 2)
    = Ok (float_of_int 14)
  ∧ linear_interpolation_1d (float_of_int <$> [0; 10]) (float_of_int <$> [10; 20])
      (float_of_int 7)
    = Ok (float_of_int 17)
  ∧ linear_interpolation_2d
      (float_of_int <$> [0; 0; 10]) (float_of_int <$> [10; 0; 30])
      (float_of_int <$> [0; 10; 20]) (float_of_int <$> [2; 7])
    = Ok (float_of_int 21)
  ∧ linear_interpolation_2d
      [of_int 0; of_int 0; of_int 10] [of_int 10; of_int 0; of_int 30]
      [of_int 0; of_int 10; of_int 20] [of_int 5; of_int 5]
    = Ok (of_int 25)
  ∧ linear_interpolation_2d
      [of_int 0; of_int 0; of_int 10] [of_int 10; of_int 0; of_int 30]
      [of_int 0; of_int 10; of_int 20] [of_int 2; of_int 7]
    = Ok (of_int 21).
Proof.
  split; [reflexivity |]. split.
  - intros. unfold linear_interpolation_2d. simpl.
    destruct (linear_interpolation_1d [J0; v0] [J1; v1] query_J); reflexivity.
  - repeat split; try (vm_compute; reflexivity); by_evaluation.
Qed.

End interpolation.

(** ** Barrier extraction *)

Section extraction.

Lemma Qc_sub_ne (x y : Qc) : x ≠ y → (y - x ≠ 0)%Qc.
Proof.
  intros Hne Heq. apply Hne. symmetry.
  rewrite <- (Qcplus_0_r x), <- Heq. ring.
Qed.

(** The fit returns the coefficients of any parabola that passes through
    three samples with pairwise distinct abscissae: that parabola is
    unique, and the fit is it. *)
Lemma polynomial_fit_2_unique (x0 x1 x2 a b c : Qc) :
  x0 ≠ x1 → x1 ≠ x2 → x0 ≠ x2 →
  polynomial_fit_2 [x0; x1; x2]
    [a + b * x0 + c * x0 * x0; a + b * x1 + c * x1 * x1; a + b * x2 + c * x2 * x2]%Qc
  = Ok [a; b; c].
Proof.
  intros H01 H12 H02. unfold polynomial_fit_2.
  rewrite bool_decide_eq_true_2 by done. cbv zeta.
  assert (((a + b * x2 + c * x2 * x2 - (a + b * x1 + c * x1 * x1)) / (x2 - x1)
           - (a + b * x1 + c * x1 * x1 - (a + b * x0 + c * x0 * x0)) / (x1 - x0))
          / (x2 - x0) = c)%Qc as ->.
  { field. auto using Qc_sub_ne. }
  assert ((a + b * x1 + c * x1 * x1 - (a + b * x0 + c * x0 * x0)) / (x1 - x0)
          - c * (x0 + x1) = b)%Qc as ->.
  { field. auto using Qc_sub_ne. }
  do 2 f_equal. ring.
Qed.

(** When the energies file exists, [find_barrier] opens it and nothing
    else, and returns the vertex of the fit around the first peak. *)
Lemma find_barrier_found env root_path J K sym grid energies :
  files env !! energies_path_of root_path J K sym = Some (Table energies) →
  find_barrier root_path J K sym grid env
  = ([energies_path_of root_path J K sym],
     p ← py_get (find_peaks energies (of_int (-5000)) (of_int 5000)) 0;
     interpolate_energies_2d (py_slice grid (Z.of_nat p - 1) (Z.of_nat p + 2))
                             (py_slice energies (Z.of_nat p - 1) (Z.of_nat p + 2))).
Proof.
  intros Hfile. unfold find_barrier.
  unfold mbind at 1, io_bind at 1, path_exists. rewrite Hfile.
  rewrite bool_decide_eq_true_2 by eauto.
  unfold mbind at 1, io_bind at 1, loadtxt. rewrite Hfile.
  unfold mbind at 1, io_bind at 1, lift.
  destruct (py_get _ 0) as [p|e]; [| reflexivity].
  unfold mbind, io_bind, result_bind, mret, io_ret.
  destruct (interpolate_energies_2d _ _); reflexivity.
Qed.

(** The example of barrier extraction, in exact arithmetic: on grid
    [1,2,3,4,5] and energies [0,1,5,1,0] the only peak in the band is at
    index 2; the windows are [2,3,4] and [1,5,1]; the one parabola through
    (2,1), (3,5), (4,1) is -31 + 24 x - 4 x², with vertex 3.  What numpy's
    floating-point least-squares solver returns for these windows is not
    determined here. *)
Lemma find_barrier_example :
  let grid := of_int <$> [1; 2; 3; 4; 5] in
  let energies := of_int <$> [0; 1; 5; 1; 0] in
  find_peaks energies (of_int (-5000)) (of_int 5000) = [2%nat]
  ∧ py_slice grid (2 - 1) (2 + 2) = of_int <$> [2; 3; 4]
  ∧ py_slice energies (2 - 1) (2 + 2) = of_int <$> [1; 5; 1]
  ∧ polynomial_fit_2 (of_int <$> [2; 3; 4]) (of_int <$> [1; 5; 1])
    = Ok (of_int <$> [-31; 24; -4])
  ∧ (∀ a b c : Qc,
       (a + b * of_int 2 + c * of_int 2 * of_int 2 = of_int 1
        ∧ a + b * of_int 3 + c * of_int 3 * of_int 3 = of_int 5
        ∧ a + b * of_int 4 + c * of_int 4 * of_int 4 = of_int 1)%Qc
       ↔ a = of_int (-31) ∧ b = of_int 24 ∧ c = of_int (-4))
  ∧ (- of_int 24 / 2 / of_int (-4))%Qc = of_int 3
  ∧ interpolate_energies_2d (of_int <$> [2; 3; 4]) (of_int <$> [1; 5; 1]) = Ok (of_int 3)
  ∧ ∀ env root_path J K sym,
      files env !! energies_path_of root_path J K sym = Some (Table energies) →
      find_barrier root_path J K sym grid env
      = ([energies_path_of root_path J K sym], Ok (of_int 3)).
Proof.
  intros grid energies.
  split; [by_evaluation |]. split; [by_evaluation |]. split; [by_evaluation |].
  split; [by_evaluation |]. split; [| split; [by_evaluation |]; split; [by_evaluation |]].
  - intros a b c. split.
    + intros (H2 & H3 & H4).
      pose proof (polynomial_fit_2_unique (of_int 2) (of_int 3) (of_int 4) a b c
                    ltac:(by_evaluation) ltac:(by_evaluation) ltac:(by_evaluation)) as Hfit.
      rewrite H2, H3, H4 in Hfit.
      assert (polynomial_fit_2 [of_int 2; of_int 3; of_int 4] [of_int 1; of_int 5; of_int 1]
              = Ok [of_int (-31); of_int 24; of_int (-4)]) as Hcomputed by by_evaluation.
      rewrite Hfit in Hcomputed. injection Hcomputed as -> -> ->.
    repeat split; reflexivity.
    + intros (-> & -> & ->). repeat split; by_evaluation.
  - intros env root_path J K sym Hfile.
    rewrite (find_barrier_found _ _ _ _ _ _ _ Hfile). f_equal. by_evaluation.
Qed.

(** C8: when no energies file exists for the state, [find_barrier]
    returns 0: it opens no file and raises nothing. *)
Theorem find_barrier_missing_file env root_path J K sym grid :
  files env !! energies_path_of root_path J K sym = None →
  find_barrier root_path J K sym grid env = ([], Ok 0%Qc).
Proof.
  intros Hfile. unfold find_barrier.
  unfold mbind, io_bind, path_exists. rewrite Hfile.
  rewrite bool_decide_eq_false_2; [reflexivity |].
  intros [? ?]; discriminate.
Qed.

Lemma find_barrier_missing_file_witness :
  let env := Environment ["."] ∅ in
  files env !! energies_path_of ["root"] 4 2 0 = None
  ∧ find_barrier ["root"] 4 2 0 (of_int <$> [1; 2; 3]) env = ([], Ok 0%Qc).
Proof.
  split; [reflexivity |].
  apply (find_barrier_missing_file (Environment ["."] ∅) ["root"] 4 2 0).
  reflexivity.
Defined.

End extraction.

(** ** Peak detection *)

Section peaks.

Implicit Types (x : list Qc) (i i_max i_ahead gap fuel p : nat).

(** The plateau scan moves forward and stops at [i_max] at the latest. *)
Lemma plateau_end_bounds gap x i_max xi i_ahead :
  (i_ahead ≤ i_max → i_ahead ≤ plateau_end gap x i_max xi i_ahead ≤ i_max)%nat.
Proof.
  revert i_ahead. induction gap as [|gap IH]; intros i_ahead Hle; simpl; [lia |].
  destruct (bool_decide (i_ahead < i_max)%nat) eqn:Hlt; simpl; [| lia].
  apply bool_decide_eq_true_1 in Hlt.
  destruct (bool_decide (at_index x i_ahead = xi)); [| lia].
  specialize (IH (S i_ahead) ltac:(lia)). lia.
Qed.

(** A gap of [i_max - i_ahead] exhausts the scan: a larger one changes
    nothing. *)
Lemma plateau_end_gap gap x i_max xi i_ahead :
  (i_max - i_ahead ≤ gap)%nat →
  plateau_end gap x i_max xi i_ahead
  = plateau_end (i_max - i_ahead) x i_max xi i_ahead.
Proof.
  revert i_ahead. induction gap as [|gap IH]; intros i_ahead Hgap.
  - by replace (i_max - i_ahead)%nat with 0%nat by lia.
  - destruct (decide (i_ahead < i_max)%nat) as [Hlt|Hge].
    + replace (i_max - i_ahead)%nat with (S (i_max - S i_ahead)) by lia.
      simpl. rewrite IH by lia. reflexivity.
    + replace (i_max - i_ahead)%nat with 0%nat by lia. simpl.
      by rewrite bool_decide_eq_false_2.
Qed.

(** Every index the loop reports lies in [i, i_max). *)
Lemma local_maxima_loop_bounds fuel x i_max i :
  Forall (λ p, i ≤ p < i_max)%nat (local_maxima_loop fuel x i_max i).
Proof.
  revert i. induction fuel as [|fuel IH]; intros i; cbn [local_maxima_loop]; [constructor |].
  cbv zeta. case_bool_decide as Hlt; [| constructor].
  case_bool_decide as Hrise.
  - pose proof (plateau_end_bounds (i_max - (i + 1)) x i_max (at_index x i) (i + 1)
                  ltac:(lia)) as Hahead.
    set (i_ahead := plateau_end _ _ _ _ _) in *.
    case_bool_decide as Hfall.
    + constructor.
      * split.
        -- apply Nat.div_le_lower_bound; lia.
        -- apply Nat.Div0.div_lt_upper_bound; lia.
      * eapply Forall_impl; [apply IH |]. simpl. intros p Hp. lia.
    + eapply Forall_impl; [apply IH |]. simpl. intros p Hp. lia.
  - eapply Forall_impl; [apply IH |]. simpl. intros p Hp. lia.
Qed.

(** [i_max - i] iterations exhaust the loop: more fuel changes nothing. *)
Lemma local_maxima_loop_fuel fuel x i_max i :
  (i_max - i ≤ fuel)%nat →
  local_maxima_loop fuel x i_max i = local_maxima_loop (i_max - i) x i_max i.
Proof.
  remember (i_max - i)%nat as n eqn:Hn. revert fuel i Hn.
  induction n as [n IHn] using lt_wf_ind. intros fuel i Hn Hfuel.
  destruct (decide (i < i_max)%nat) as [Hlt|Hge].
  - destruct fuel as [|fuel]; [lia |]. destruct n as [|n']; [lia |].
    cbn [local_maxima_loop]. cbv zeta. rewrite !(bool_decide_eq_true_2 (i < i_max)%nat) by done.
    pose proof (plateau_end_bounds (i_max - (i + 1)) x i_max (at_index x i) (i + 1)
                  ltac:(lia)) as Hahead.
    set (i_ahead := plateau_end _ _ _ _ _) in *.
    assert (∀ j, (i < j)%nat →
              local_maxima_loop fuel x i_max j = local_maxima_loop n' x i_max j) as Hrec.
    { intros j Hj.
      rewrite (IHn (i_max - j)%nat ltac:(lia) fuel j eq_refl ltac:(lia)).
      rewrite (IHn (i_max - j)%nat ltac:(lia) n' j eq_refl ltac:(lia)).
      reflexivity. }
    rewrite !Hrec by lia. reflexivity.
  - destruct fuel as [|fuel]; destruct n as [|n']; cbn [local_maxima_loop];
      rewrite ?(bool_decide_eq_false_2 (i < i_max)%nat) by done; reflexivity || lia.
Qed.

(** A local maximum has both neighbours. *)
Lemma local_maxima_1d_bounds x :
  Forall (λ p, 1 ≤ p ∧ p + 2 ≤ length x)%nat (local_maxima_1d x).
Proof.
  unfold local_maxima_1d.
  eapply Forall_impl; [apply local_maxima_loop_bounds |]. simpl. lia.
Qed.


(** A slice whose bounds lie inside the sequence has their difference as
    length. *)
Lemma length_py_slice {A} (l : list A) (start stop : Z) :
  0 ≤ start ≤ stop → stop ≤ Z.of_nat (length l) →
  Z.of_nat (length (py_slice l start stop)) = stop - start.
Proof.
  intros Hstart Hstop. unfold py_slice, py_slice_bound.
  rewrite !bool_decide_eq_false_2 by lia.
  rewrite length_take, length_drop. lia.
Qed.






End peaks.

(** ** The channels scan *)

Section channels.

Implicit Types (channel_lines : list channel_line) (a b c : Qc).

(** A strictly positive slot is filled. *)
Lemma positive_nonzero (x : Qc) : (0 < x)%Qc → bool_decide (x = 0%Qc) = false.
Proof.
  intros Hx. apply bool_decide_eq_false_2. intros ->.
  by apply Qclt_not_eq in Hx.
Qed.

(** At the [break] every slot is filled, so the scan of the remaining
    lines would change nothing. *)
Lemma all_positive_filled a b c channel_lines :
  forallb (λ position, bool_decide (0 < position)%Qc) [a; b; c] = true →
  [if bool_decide (a = 0%Qc) then first_nonzero 1 channel_lines else a;
   if bool_decide (b = 0%Qc) then first_nonzero 2 channel_lines else b;
   if bool_decide (c = 0%Qc) then first_nonzero 3 channel_lines else c]
  = [a; b; c].
Proof.
  cbn [forallb]. rewrite !andb_true_iff, !bool_decide_eq_true.
  intros (Ha & Hb & Hc & _).
  by rewrite !positive_nonzero.
Qed.

(** One line of the file: only a slot of the line's group that is still 0
    takes the value of the line. *)
Lemma slot_step g v channel channel_lines s :
  (if bool_decide (s = 0%Qc)
   then first_nonzero channel (ChannelLine g v :: channel_lines) else s)
  = (let s' := if bool_decide (g = channel) && bool_decide (s = 0%Qc) then v else s in
     if bool_decide (s' = 0%Qc) then first_nonzero channel channel_lines else s').
Proof.
  unfold first_nonzero. cbn [first_value group position].
  repeat case_bool_decide; cbn; repeat case_bool_decide; subst; done.
Qed.

(** A slot that is still 0 ends as the first non-zero value of its group,
    a filled slot keeps its own. *)
Lemma scan_channel_lines_slots channel_lines a b c :
  Forall (λ line, 1 ≤ group line ≤ 3) channel_lines →
  scan_channel_lines channel_lines [a; b; c]
  = Ok [if bool_decide (a = 0%Qc) then first_nonzero 1 channel_lines else a;
        if bool_decide (b = 0%Qc) then first_nonzero 2 channel_lines else b;
        if bool_decide (c = 0%Qc) then first_nonzero 3 channel_lines else c].
Proof.
  intros Hgroups. revert a b c.
  induction Hgroups as [|[g v] channel_lines Hg _ IH]; intros a b c.
  - cbn. by repeat case_bool_decide; subst.
  - cbn [group] in Hg.
    rewrite (slot_step g v 1 channel_lines a), (slot_step g v 2 channel_lines b),
      (slot_step g v 3 channel_lines c).
    cbn [scan_channel_lines group position].
    assert (g = 1 ∨ g = 2 ∨ g = 3) as [-> | [-> | ->]] by lia.
    + change (py_index [a; b; c] (1 - 1)) with (Ok a).
      change (py_setitem [a; b; c] (1 - 1) v) with (Ok [v; b; c]).
      cbn [mbind result_bind]. cbn -[forallb scan_channel_lines first_nonzero].
      destruct (bool_decide (a = 0%Qc)); cbn [mbind result_bind];
        (destruct (forallb _ _) eqn:Hall; [by rewrite all_positive_filled | apply IH]).
    + change (py_index [a; b; c] (2 - 1)) with (Ok b).
      change (py_setitem [a; b; c] (2 - 1) v) with (Ok [a; v; c]).
      cbn -[forallb scan_channel_lines first_nonzero].
      destruct (bool_decide (b = 0%Qc)); cbn [mbind result_bind];
        (destruct (forallb _ _) eqn:Hall; [by rewrite all_positive_filled | apply IH]).
    + change (py_index [a; b; c] (3 - 1)) with (Ok c).
      change (py_setitem [a; b; c] (3 - 1) v) with (Ok [a; b; v]).
      cbn -[forallb scan_channel_lines first_nonzero].
      destruct (bool_decide (c = 0%Qc)); cbn [mbind result_bind];
        (destruct (forallb _ _) eqn:Hall; [by rewrite all_positive_filled | apply IH]).
Qed.

(** Where no value is negative, the first non-zero value is the first
    strictly positive one. *)
Lemma first_nonzero_positive channel channel_lines :
  Forall (λ line, (0 ≤ position line)%Qc) channel_lines →
  first_nonzero channel channel_lines = first_positive channel channel_lines.
Proof.
  unfold first_nonzero, first_positive.
  induction 1 as [|line channel_lines Hline _ IH]; [reflexivity |].
  cbn [first_value]. rewrite IH.
  replace (bool_decide (position line ≠ 0%Qc))
    with (bool_decide (0 < position line)%Qc); [reflexivity |].
  apply bool_decide_ext. split.
  - intros Hlt Heq. rewrite Heq in Hlt. by apply Qclt_not_eq in Hlt.
  - intros Hne. apply Qcle_lt_or_eq in Hline as [Hlt | Heq]; [done | by destruct Hne].
Qed.

(** C2, as stated, fails: a channels file whose group 1 carries -1 and
    then 2 yields -1 for the first channel, while the first strictly
    positive value of that group is 2. *)
Lemma load_lowest_barrier_info_first_positive_counterexample :
  let channel_lines := [ChannelLine 1 (of_int (-1)); ChannelLine 1 (of_int 2)] in
  let env := Environment ["."] {[ ["channels.dat"] := Channels channel_lines ]} in
  Forall (λ line, 1 ≤ group line ≤ 3) channel_lines
  ∧ load_lowest_barrier_info ["channels.dat"] env
    = ([["channels.dat"]], Ok [of_int (-1); of_int 0; of_int 0])
  ∧ first_positive 1 channel_lines = of_int 2
  ∧ load_lowest_barrier_info ["channels.dat"] env
    ≠ ([["channels.dat"]],
       Ok [first_positive 1 channel_lines; first_positive 2 channel_lines;
           first_positive 3 channel_lines]).
Proof.
  intros channel_lines env.
  split; [repeat constructor; cbn; lia |].
  split; [by_evaluation |]. split; [by_evaluation |].
  by_evaluation.
Qed.

(** C2, amended: for a channels file whose groups are 1, 2 or 3,
    [load_lowest_barrier_info] returns for each channel the first non-zero
    value that appears for it in file order, and 0 for a channel that
    never sees one; when no value of the file is negative, that is the
    first strictly positive value. *)
Theorem load_lowest_barrier_info_first_nonzero env channels_file_path channel_lines :
  files env !! channels_file_path = Some (Channels channel_lines) →
  Forall (λ line, 1 ≤ group line ≤ 3) channel_lines →
  load_lowest_barrier_info channels_file_path env
  = ([channels_file_path],
     Ok [first_nonzero 1 channel_lines; first_nonzero 2 channel_lines;
         first_nonzero 3 channel_lines])
  ∧ (Forall (λ line, (0 ≤ position line)%Qc) channel_lines →
     ∀ channel, first_nonzero channel channel_lines = first_positive channel channel_lines).
Proof.
  intros Hfile Hgroups. split.
  - unfold load_lowest_barrier_info, mbind, io_bind, readlines, lift. rewrite Hfile.
    change (replicate 3 0%Qc) with [0%Qc; 0%Qc; 0%Qc].
    rewrite scan_channel_lines_slots by done. reflexivity.
  - intros Hnonneg channel. by apply first_nonzero_positive.
Qed.

Lemma load_lowest_barrier_info_first_nonzero_witness :
  let channel_lines :=
    [ChannelLine 2 (of_int 0); ChannelLine 2 (of_int 7); ChannelLine 1 (of_int 3);
     ChannelLine 2 (of_int 9)] in
  let env := Environment ["."] {[ ["channels.dat"] := Channels channel_lines ]} in
  files env !! ["channels.dat"] = Some (Channels channel_lines)
  ∧ Forall (λ line, 1 ≤ group line ≤ 3) channel_lines
  ∧ load_lowest_barrier_info ["channels.dat"] env
    = ([["channels.dat"]],
       Ok [first_nonzero 1 channel_lines; first_nonzero 2 channel_lines;
           first_nonzero 3 channel_lines]).
Proof.
  intros channel_lines env.
  assert (files env !! ["channels.dat"] = Some (Channels channel_lines)) as Hfile
    by reflexivity.
  assert (Forall (λ line, 1 ≤ group line ≤ 3) channel_lines) as Hgroups
    by (repeat constructor; cbn; lia).
  split; [exact Hfile |]. split; [exact Hgroups |].
  exact (proj1 (load_lowest_barrier_info_first_nonzero env ["channels.dat"] channel_lines
                  Hfile Hgroups)).
Defined.

End channels.

(** ** Paths of the channels files *)

Section paths.

Lemma string_app_length (s t : string) :
  String.length (s +:+ t) = (String.length s + String.length t)%nat.
Proof. induction s as [|a s IH]; [reflexivity |]. simpl. by rewrite IH. Qed.

Lemma string_app_inj_r (s1 s2 t : string) : s1 +:+ t = s2 +:+ t → s1 = s2.
Proof.
  revert s2. induction s1 as [|a s1 IH]; intros [|b s2] Heq.
  - reflexivity.
  - apply (f_equal String.length) in Heq. simpl in Heq.
    rewrite !string_app_length in Heq. simpl in Heq. lia.
  - apply (f_equal String.length) in Heq. simpl in Heq.
    rewrite !string_app_length in Heq. simpl in Heq. lia.
  - simpl in Heq. injection Heq as -> Heq. f_equal. by apply IH.
Qed.

(** A positive decimal numeral has no leading zero. *)
Lemma pretty_N_go_head (x : N) (s : string) :
  (0 < x)%N → ∃ c rest, pretty_N_go x s = String c rest ∧ c ≠ "0"%char.
Proof.
  revert s. induction (N.lt_wf_0 x) as [x _ IH]; intros s Hx.
  rewrite pretty_N_go_step by done.
  destruct (decide (x < 10)%N) as [Hsmall|Hbig].
  - rewrite N.div_small, N.mod_small, pretty_N_go_0 by done.
    eexists _, _. split; [reflexivity |].
    assert (x = 1 ∨ x = 2 ∨ x = 3 ∨ x = 4 ∨ x = 5 ∨ x = 6
            ∨ x = 7 ∨ x = 8 ∨ x = 9)%N as Hdigit by lia.
    decompose [or] Hdigit; subst; discriminate.
  - apply IH; [apply N.div_lt; lia |]. apply N.div_str_pos_iff; lia.
Qed.

Lemma pretty_Z_head_zero (n : Z) (s : string) : pretty n = String "0" s → n = 0.
Proof.
  destruct n as [|x|x]; [done | |].
  - unfold pretty, pretty_Z, pretty, pretty_positive, pretty, pretty_N.
    rewrite decide_False by done.
    destruct (pretty_N_go_head (N.pos x) "" ltac:(lia)) as (c & rest & -> & Hc).
    by intros [= -> _].
  - unfold pretty, pretty_Z. simpl. discriminate.
Qed.

(** Distinct integers have distinct two-character formats. *)
Lemma format_02_inj : Inj (=) (=) format_02.
Proof.
  assert (∀ m n : Z, (String.length (pretty m) < 2)%nat →
                 ¬ (String.length (pretty n) < 2)%nat →
                 "0" +:+ pretty m ≠ pretty n) as Hmixed.
  { intros m n Hm Hn Heq. symmetry in Heq.
    apply pretty_Z_head_zero in Heq as ->. apply Hn. cbn. lia. }
  intros m n. unfold format_02.
  repeat case_bool_decide; intros Heq.
  - injection Heq as Heq. by apply (inj pretty).
  - by destruct (Hmixed m n).
  - by destruct (Hmixed n m).
  - by apply (inj pretty).
Qed.

(** For a fixed molecule and symmetry, the path determines J and K. *)
Lemma get_channels_file_path_inj folder molecule J K J' K' symmetry p :
  get_channels_file_path folder molecule J K symmetry = Ok p →
  get_channels_file_path folder molecule J' K' symmetry = Ok p →
  J = J' ∧ K = K'.
Proof.
  unfold get_channels_file_path.
  destruct (get_symmetry_letter symmetry) as [letter|]; [| discriminate].
  cbn [mbind result_bind]. intros [= <-] [= Heq%(inj (app folder))].
  injection Heq as HJ HK. split.
  - by apply format_02_inj.
  - by apply format_02_inj, (string_app_inj_r _ _ letter).
Qed.

End paths.

(** ** Exceptions of the interpolation *)

Section exceptions.

(** An exception that neither a computation nor its continuation raises
    is not raised by their sequence. *)
Section no_error.
Context (e : error).

Lemma result_bind_ne {A B} (m : result A) (f : A → result B) :
  m ≠ Err e → (∀ a, f a ≠ Err e) → m ≫= f ≠ Err e.
Proof. intros Hm Hf. destruct m as [a|e']; [apply Hf | by intros [= ->]]. Qed.

Lemma result_mapM_ne {A B} (f : A → result B) (l : list A) :
  (∀ a, f a ≠ Err e) → mapM f l ≠ Err e.
Proof.
  intros Hf. induction l as [|a l IH]; [discriminate |].
  cbn [mapM]. apply result_bind_ne; [apply Hf |]. intros b.
  apply result_bind_ne; [exact IH |]. discriminate.
Qed.

Lemma io_bind_ne {A B} (m : io A) (f : A → io B) env :
  (m env).2 ≠ Err e → (∀ a, (f a env).2 ≠ Err e) → ((m ≫= f) env).2 ≠ Err e.
Proof.
  intros Hm Hf. unfold mbind, io_bind.
  destruct (m env) as [log [a|e']]; [| by intros [= ->]].
  specialize (Hf a). by destruct (f a env).
Qed.

Lemma io_mapM_ne {A B} (f : A → io B) (l : list A) env :
  (∀ a, (f a env).2 ≠ Err e) → (mapM f l env).2 ≠ Err e.
Proof.
  intros Hf. induction l as [|a l IH]; [discriminate |].
  cbn [mapM]. apply io_bind_ne; [apply Hf |]. intros b.
  apply io_bind_ne; [exact IH |]. discriminate.
Qed.

End no_error.

(** Indexing raises nothing but [IndexError]. *)
Lemma py_get_error {A} (l : list A) i e : py_get l i = Err e → e = IndexError.
Proof. unfold py_get. destruct (l !! i); congruence. Qed.

Lemma py_index_error {A} (l : list A) i e : py_index l i = Err e → e = IndexError.
Proof. unfold py_index. destruct (py_position _ _); [apply py_get_error | congruence]. Qed.

Lemma py_setitem_error {A} (l : list A) i a e : py_setitem l i a = Err e → e = IndexError.
Proof. unfold py_setitem. destruct (py_position _ _); congruence. Qed.

Lemma scan_channel_lines_error channel_lines barrier_positions e :
  scan_channel_lines channel_lines barrier_positions = Err e → e = IndexError.
Proof.
  revert barrier_positions.
  induction channel_lines as [|line channel_lines IH]; intros bp; [discriminate |].
  cbn [scan_channel_lines].
  destruct (py_index bp (group line - 1)) as [current|e'] eqn:Hcur;
    [| intros [= <-]; by eapply py_index_error].
  cbn [mbind result_bind].
  destruct (bool_decide (current = 0%Qc)).
  - destruct (py_setitem _ _ _) as [bp'|e'] eqn:Hset;
      [| intros [= <-]; by eapply py_setitem_error].
    cbn [mbind result_bind]. destruct (forallb _ _); [discriminate | apply IH].
  - cbn [mbind result_bind]. destruct (forallb _ _); [discriminate | apply IH].
Qed.

(** Distinct integers stay distinct as numbers. *)
Lemma of_int_sub_ne (m n : Z) : m ≠ n → (of_int n - of_int m ≠ 0)%Qc.
Proof.
  intros Hne. unfold of_int. rewrite <- Z2Qc_inj_sub, <- Z2Qc_inj_0.
  intros Heq%Z2Qc_inj. lia.
Qed.

(** Planar interpolation on brackets of distinct nodes returns. *)
Lemma linear_interpolation_2d_ok (J_0 J_1 K_0 K_1 : Z) (k0' j0' v_00 v_10 v_01 qJ qK : Qc) :
  J_0 ≠ J_1 → K_0 ≠ K_1 →
  linear_interpolation_2d [of_int J_0; of_int K_0; v_00] [of_int J_1; k0'; v_10]
                          [j0'; of_int K_1; v_01] [qJ; qK]
  = Ok ((v_10 - v_00) / (of_int J_1 - of_int J_0) * (qJ - of_int J_0) + v_00
        + ((v_01 - v_00) / (of_int K_1 - of_int K_0) * (qK - of_int K_0) + v_00)
        - v_00)%Qc.
Proof.
  intros HJ HK. unfold linear_interpolation_2d.
  cbn [mapM mbind result_bind py_get lookup list_lookup mret result_ret drop].
  rewrite !linear_interpolation_1d_ok by by apply of_int_sub_ne.
  reflexivity.
Qed.

Lemma interpolate_channel_no_zero_division J_low K_low known J K i :
  interpolate_channel [J_low; J_low + 4] [K_low; K_low + 2] known J K i
  ≠ Err ZeroDivisionError.
Proof.
  unfold interpolate_channel.
  cbn [mbind result_bind py_get lookup list_lookup].
  repeat (apply result_bind_ne; [by intros ?%py_get_error | intros ?]).
  rewrite linear_interpolation_2d_ok by lia. discriminate.
Qed.

Lemma io_bind_lift_ok {A B} (a : A) (f : A → io B) env :
  (lift (Ok a) ≫= f) env = f a env.
Proof. unfold mbind, io_bind, lift. by destruct (f a env). Qed.

Lemma get_channels_file_path_error folder molecule J K sym e :
  get_channels_file_path folder molecule J K sym = Err e → e = WrongSymmetryCode.
Proof.
  unfold get_channels_file_path, get_symmetry_letter.
  repeat case_bool_decide; cbn; congruence.
Qed.

Lemma load_lowest_barrier_info_no_zero_division p env :
  (load_lowest_barrier_info p env).2 ≠ Err ZeroDivisionError.
Proof.
  unfold load_lowest_barrier_info. apply io_bind_ne.
  - unfold readlines. cbn. by destruct (files env !! p) as [[]|].
  - intros channel_lines. unfold lift. cbn. by intros ?%scan_channel_lines_error.
Qed.

Lemma load_known_barrier_positions_no_zero_division molecule Js_interp Ks_interp symmetry env :
  (load_known_barrier_positions molecule Js_interp Ks_interp symmetry env).2
  ≠ Err ZeroDivisionError.
Proof.
  unfold load_known_barrier_positions.
  apply io_bind_ne; [discriminate |]. intros folder.
  apply io_mapM_ne. intros J_i. apply io_mapM_ne. intros K_j.
  apply io_bind_ne.
  - unfold lift. cbn. by intros ?%get_channels_file_path_error.
  - intros p. apply io_bind_ne; [apply load_lowest_barrier_info_no_zero_division |].
    discriminate.
Qed.

(** C9: for every query the J bracket is (J_low, J_low + 4) and the K
    bracket, computed from J_low, is (K_low, K_low + 2); every 1D
    interpolation on these brackets has x1 ≠ x2 and returns; and
    [interpolate_barrier_positions_JK] never raises [ZeroDivisionError]. *)
Theorem interpolate_barrier_positions_JK_no_zero_division env molecule J K symmetry :
  (∃ J_low K_low,
     select_interpolating_Js J = [J_low; J_low + 4]
     ∧ select_interpolating_Ks J_low K = [K_low; K_low + 2]
     ∧ (∀ v1 v2 query_x,
          linear_interpolation_1d [of_int J_low; v1] [of_int (J_low + 4); v2] query_x
          = Ok ((v2 - v1) / (of_int (J_low + 4) - of_int J_low)
                * (query_x - of_int J_low) + v1)%Qc)
     ∧ (∀ v1 v2 query_x,
          linear_interpolation_1d [of_int K_low; v1] [of_int (K_low + 2); v2] query_x
          = Ok ((v2 - v1) / (of_int (K_low + 2) - of_int K_low)
                * (query_x - of_int K_low) + v1)%Qc))
  ∧ (interpolate_barrier_positions_JK molecule J K symmetry env).2 ≠ Err ZeroDivisionError.
Proof.
  destruct (select_interpolating_Js_shape J) as (J_low & HJs & HJ_low).
  destruct (select_interpolating_Ks_shape J_low K HJ_low) as (K_low & HKs).
  split.
  - exists J_low, K_low. split; [exact HJs |]. split; [exact HKs |].
    split; intros; apply linear_interpolation_1d_ok, of_int_sub_ne; lia.
  - unfold interpolate_barrier_positions_JK. rewrite HJs.
    change (py_get [J_low; J_low + 4] 0) with (Ok J_low).
    rewrite io_bind_lift_ok, HKs.
    apply io_bind_ne; [apply load_known_barrier_positions_no_zero_division |].
    intros known. unfold lift, interpolate_known_barrier_positions. cbn [snd].
    repeat (apply result_bind_ne; [by intros ?%py_get_error | intros ?]).
    apply result_mapM_ne. intros i. apply interpolate_channel_no_zero_division.
Qed.

End exceptions.

(** ** The corners of the interpolation *)

Section corners.

(** Loading a record opens its file, and only it. *)
Lemma load_lowest_barrier_info_log p env :
  load_lowest_barrier_info p env = ([p], (load_lowest_barrier_info p env).2).
Proof.
  unfold load_lowest_barrier_info, mbind, io_bind, readlines, lift.
  by destruct (files env !! p) as [[column|channel_lines]|].
Qed.

(** The loading block visits the four corners of the brackets in row-major
    order and stops at the first record that fails to load. *)
Lemma load_known_barrier_positions_eval env molecule symmetry J_0 J_1 K_0 K_1
    p00 p01 p10 p11 :
  get_channels_file_path (script_folder env) molecule J_0 K_0 symmetry = Ok p00 →
  get_channels_file_path (script_folder env) molecule J_0 K_1 symmetry = Ok p01 →
  get_channels_file_path (script_folder env) molecule J_1 K_0 symmetry = Ok p10 →
  get_channels_file_path (script_folder env) molecule J_1 K_1 symmetry = Ok p11 →
  load_known_barrier_positions molecule [J_0; J_1] [K_0; K_1] symmetry env
  = match (load_lowest_barrier_info p00 env).2 with
    | Err e => ([p00], Err e)
    | Ok c00 =>
      match (load_lowest_barrier_info p01 env).2 with
      | Err e => ([p00; p01], Err e)
      | Ok c01 =>
        match (load_lowest_barrier_info p10 env).2 with
        | Err e => ([p00; p01; p10], Err e)
        | Ok c10 =>
          match (load_lowest_barrier_info p11 env).2 with
          | Err e => ([p00; p01; p10; p11], Err e)
          | Ok c11 => ([p00; p01; p10; p11], Ok [[c00; c01]; [c10; c11]])
          end
        end
      end
    end.
Proof.
  intros H00 H01 H10 H11.
  unfold load_known_barrier_positions. cbn [mapM].
  unfold mbind, io_bind, get_script_folder, lift, mret, io_ret.
  rewrite H00, H01, H10, H11.
  rewrite (load_lowest_barrier_info_log p00), (load_lowest_barrier_info_log p01),
    (load_lowest_barrier_info_log p10), (load_lowest_barrier_info_log p11).
  destruct (load_lowest_barrier_info p00 env).2; [| reflexivity].
  destruct (load_lowest_barrier_info p01 env).2; [| reflexivity].
  destruct (load_lowest_barrier_info p10 env).2; [| reflexivity].
  destruct (load_lowest_barrier_info p11 env).2; reflexivity.
Qed.

Lemma interpolate_barrier_positions_JK_eval env molecule J K symmetry J_low J_high K_low K_high :
  select_interpolating_Js J = [J_low; J_high] →
  select_interpolating_Ks J_low K = [K_low; K_high] →
  interpolate_barrier_positions_JK molecule J K symmetry env
  = match load_known_barrier_positions molecule [J_low; J_high] [K_low; K_high] symmetry env with
    | (log, Ok known) =>
        (log, interpolate_known_barrier_positions [J_low; J_high] [K_low; K_high] known J K)
    | (log, Err e) => (log, Err e)
    end.
Proof.
  intros HJs HKs. unfold interpolate_barrier_positions_JK. rewrite HJs.
  change (py_get [J_low; J_high] 0) with (Ok J_low).
  rewrite io_bind_lift_ok, HKs. unfold mbind, io_bind, lift.
  destruct (load_known_barrier_positions _ _ _ _ _) as [log [known|e]]; [| reflexivity].
  by rewrite app_nil_r.
Qed.

(** The interpolation block never reads the last corner. *)
Lemma interpolate_known_barrier_positions_corners Js_interp Ks_interp c00 c01 c10 c11 c11' J K :
  interpolate_known_barrier_positions Js_interp Ks_interp [[c00; c01]; [c10; c11]] J K
  = interpolate_known_barrier_positions Js_interp Ks_interp [[c00; c01]; [c10; c11']] J K.
Proof. reflexivity. Qed.

Lemma load_lowest_barrier_info_with_file_ne env p q f :
  p ≠ q →
  load_lowest_barrier_info p (with_file env q f) = load_lowest_barrier_info p env.
Proof.
  intros Hne. unfold load_lowest_barrier_info, mbind, io_bind, readlines, with_file.
  cbn [files]. by rewrite lookup_insert_ne.
Qed.

Lemma load_lowest_barrier_info_with_file env p channel_lines :
  load_lowest_barrier_info p (with_file env p (Channels channel_lines))
  = ([p], scan_channel_lines channel_lines (replicate 3 0%Qc)).
Proof.
  unfold load_lowest_barrier_info, mbind, io_bind, readlines, with_file, lift.
  cbn [files]. by rewrite lookup_insert_eq.
Qed.

(** C3, amended: a call that returns has opened the records of all four
    corners, in the order (J_low, K_low), (J_low, K_high), (J_high, K_low),
    (J_high, K_high); only the first three enter the interpolation:
    whenever the record at (J_high, K_high) loads, the outcome of the call
    does not depend on its contents. *)
Theorem interpolate_barrier_positions_JK_corners env molecule J K symmetry
    J_low J_high K_low K_high p00 p01 p10 p11 :
  select_interpolating_Js J = [J_low; J_high] →
  select_interpolating_Ks J_low K = [K_low; K_high] →
  get_channels_file_path (script_folder env) molecule J_low K_low symmetry = Ok p00 →
  get_channels_file_path (script_folder env) molecule J_low K_high symmetry = Ok p01 →
  get_channels_file_path (script_folder env) molecule J_high K_low symmetry = Ok p10 →
  get_channels_file_path (script_folder env) molecule J_high K_high symmetry = Ok p11 →
  (∀ log barrier_positions,
     interpolate_barrier_positions_JK molecule J K symmetry env = (log, Ok barrier_positions) →
     log = [p00; p01; p10; p11])
  ∧ (∀ channel_lines channel_lines' lowest lowest',
       scan_channel_lines channel_lines (replicate 3 0%Qc) = Ok lowest →
       scan_channel_lines channel_lines' (replicate 3 0%Qc) = Ok lowest' →
       interpolate_barrier_positions_JK molecule J K symmetry
         (with_file env p11 (Channels channel_lines))
       = interpolate_barrier_positions_JK molecule J K symmetry
           (with_file env p11 (Channels channel_lines'))).
Proof.
  intros HJs HKs H00 H01 H10 H11.
  destruct (select_interpolating_Js_shape J) as (J_low' & HJs' & HJ_low).
  rewrite HJs in HJs'. injection HJs' as <- ->.
  destruct (select_interpolating_Ks_shape J_low K HJ_low) as (K_low' & HKs').
  rewrite HKs in HKs'. injection HKs' as <- ->.
  split.
  - intros log barrier_positions.
    rewrite (interpolate_barrier_positions_JK_eval _ _ _ _ _ _ _ _ _ HJs HKs).
    rewrite (load_known_barrier_positions_eval _ _ _ _ _ _ _ _ _ _ _ H00 H01 H10 H11).
    repeat (destruct (load_lowest_barrier_info _ env).2; [| discriminate]).
    congruence.
  - intros channel_lines channel_lines' lowest lowest' Hscan Hscan'.
    assert (p00 ≠ p11) as Hne00.
    { intros ->. destruct (get_channels_file_path_inj _ _ _ _ _ _ _ _ H00 H11). lia. }
    assert (p01 ≠ p11) as Hne01.
    { intros ->. destruct (get_channels_file_path_inj _ _ _ _ _ _ _ _ H01 H11). lia. }
    assert (p10 ≠ p11) as Hne10.
    { intros ->. destruct (get_channels_file_path_inj _ _ _ _ _ _ _ _ H10 H11). lia. }
    rewrite !(interpolate_barrier_positions_JK_eval _ _ _ _ _ _ _ _ _ HJs HKs).
    rewrite (load_known_barrier_positions_eval (with_file env p11 (Channels channel_lines))
               _ _ _ _ _ _ _ _ _ _ H00 H01 H10 H11).
    rewrite (load_known_barrier_positions_eval (with_file env p11 (Channels channel_lines'))
               _ _ _ _ _ _ _ _ _ _ H00 H01 H10 H11).
    rewrite !(load_lowest_barrier_info_with_file_ne env p00 p11) by done.
    rewrite !(load_lowest_barrier_info_with_file_ne env p01 p11) by done.
    rewrite !(load_lowest_barrier_info_with_file_ne env p10 p11) by done.
    rewrite !load_lowest_barrier_info_with_file. cbn [snd]. rewrite Hscan, Hscan'.
    repeat (destruct (load_lowest_barrier_info _ env).2; [| reflexivity]).
    reflexivity.
Qed.

(** C3, as stated, fails: for molecule 868, J = 6, K = 0 the record of the
    corner (J_high, K_high) = (8, 2) is opened, and the outcome depends on
    it: with a record there the positions are returned, without the file
    the call raises [FileNotFoundError], with a record of group 4 it
    raises [IndexError]. *)
Lemma interpolate_barrier_positions_JK_fourth_corner_counterexample :
  let record := Channels [ChannelLine 1 (of_int 3); ChannelLine 2 (of_int 4);
                          ChannelLine 3 (of_int 5)] in
  let p00 := ["."; "script_data"; "868_full"; "J04"; "K00S"; "channels.dat"] in
  let p01 := ["."; "script_data"; "868_full"; "J04"; "K02S"; "channels.dat"] in
  let p10 := ["."; "script_data"; "868_full"; "J08"; "K00S"; "channels.dat"] in
  let p11 := ["."; "script_data"; "868_full"; "J08"; "K02S"; "channels.dat"] in
  let env := Environment ["."] (list_to_map [(p00, record); (p01, record); (p10, record)]) in
  select_interpolating_Js 6 = [4; 8]
  ∧ select_interpolating_Ks 4 0 = [0; 2]
  ∧ get_channels_file_path (script_folder env) "868" 8 2 0 = Ok p11
  ∧ interpolate_barrier_positions_JK "868" 6 0 0 (with_file env p11 record)
    = ([p00; p01; p10; p11], Ok [of_int 3; of_int 4; of_int 5])
  ∧ interpolate_barrier_positions_JK "868" 6 0 0 env
    = ([p00; p01; p10; p11], Err FileNotFoundError)
  ∧ interpolate_barrier_positions_JK "868" 6 0 0
      (with_file env p11 (Channels [ChannelLine 4 (of_int 1)]))
    = ([p00; p01; p10; p11], Err IndexError).
Proof. repeat split; by_evaluation. Qed.

Lemma interpolate_barrier_positions_JK_corners_witness :
  let record := Channels [ChannelLine 1 (of_int 3); ChannelLine 2 (of_int 4);
                          ChannelLine 3 (of_int 5)] in
  let p00 := ["."; "script_data"; "868_full"; "J04"; "K00S"; "channels.dat"] in
  let p01 := ["."; "script_data"; "868_full"; "J04"; "K02S"; "channels.dat"] in
  let p10 := ["."; "script_data"; "868_full"; "J08"; "K00S"; "channels.dat"] in
  let p11 := ["."; "script_data"; "868_full"; "J08"; "K02S"; "channels.dat"] in
  let env := Environment ["."] (list_to_map [(p00, record); (p01, record); (p10, record)]) in
  select_interpolating_Js 6 = [4; 8]
  ∧ select_interpolating_Ks 4 0 = [0; 2]
  ∧ get_channels_file_path (script_folder env) "868" 4 0 0 = Ok p00
  ∧ get_channels_file_path (script_folder env) "868" 4 2 0 = Ok p01
  ∧ get_channels_file_path (script_folder env) "868" 8 0 0 = Ok p10
  ∧ get_channels_file_path (script_folder env) "868" 8 2 0 = Ok p11
  ∧ scan_channel_lines [ChannelLine 1 (of_int 9)] (replicate 3 0%Qc)
    = Ok [of_int 9; 0%Qc; 0%Qc]
  ∧ scan_channel_lines [ChannelLine 3 (of_int 7)] (replicate 3 0%Qc)
    = Ok [0%Qc; 0%Qc; of_int 7]
  ∧ interpolate_barrier_positions_JK "868" 6 0 0
      (with_file env p11 (Channels [ChannelLine 1 (of_int 9)]))
    = interpolate_barrier_positions_JK "868" 6 0 0
        (with_file env p11 (Channels [ChannelLine 3 (of_int 7)])).
Proof.
  intros record p00 p01 p10 p11 env.
  assert (select_interpolating_Js 6 = [4; 8]) as HJs by reflexivity.
  assert (select_interpolating_Ks 4 0 = [0; 2]) as HKs by reflexivity.
  assert (get_channels_file_path (script_folder env) "868" 4 0 0 = Ok p00) as H00
    by (vm_compute; reflexivity).
  assert (get_channels_file_path (script_folder env) "868" 4 2 0 = Ok p01) as H01
    by (vm_compute; reflexivity).
  assert (get_channels_file_path (script_folder env) "868" 8 0 0 = Ok p10) as H10
    by (vm_compute; reflexivity).
  assert (get_channels_file_path (script_folder env) "868" 8 2 0 = Ok p11) as H11
    by (vm_compute; reflexivity).
  assert (scan_channel_lines [ChannelLine 1 (of_int 9)] (replicate 3 0%Qc)
          = Ok [of_int 9; 0%Qc; 0%Qc]) as Hscan by (vm_compute; reflexivity).
  assert (scan_channel_lines [ChannelLine 3 (of_int 7)] (replicate 3 0%Qc)
          = Ok [0%Qc; 0%Qc; of_int 7]) as Hscan' by (vm_compute; reflexivity).
  repeat (split; [assumption |]).
  exact (proj2 (interpolate_barrier_positions_JK_corners env "868" 6 0 0 4 8 0 2
                  p00 p01 p10 p11 HJs HKs H00 H01 H10 H11) _ _ _ _ Hscan Hscan').
Defined.

End corners.

(** ** The batch driver *)

(** Writing a cell leaves the other cells as they are. *)
Lemma get_cell_set_cell_ne barriers K_ind J_ind v K_ind' J_ind' :
  (K_ind', J_ind') ≠ (K_ind, J_ind) →
  get_cell (set_cell barriers K_ind J_ind v) K_ind' J_ind' = get_cell barriers K_ind' J_ind'.
Proof.
  intros Hne. unfold get_cell, set_cell.
  destruct (decide (K_ind = K_ind')) as [<-|HK].
  - rewrite list_lookup_alter_eq. destruct (barriers !! K_ind) as [row|]; [| reflexivity].
    cbn. apply list_lookup_insert_ne. congruence.
  - by rewrite list_lookup_alter_ne.
Qed.

Lemma get_cell_replicate (rows columns K_ind J_ind : nat) (v : Qc) :
  (K_ind < rows)%nat → (J_ind < columns)%nat →
  get_cell (replicate rows (replicate columns v)) K_ind J_ind = Some v.
Proof.
  intros HK HJ. unfold get_cell.
  rewrite lookup_replicate_2 by done. cbn. by rewrite lookup_replicate_2.
Qed.

(** A property kept by every iteration that returns is kept by the loop. *)
Lemma io_foldl_invariant {A B} (P : A → Prop) (f : A → B → io A) (l : list B) env :
  (∀ a b log a', P a → f a b env = (log, Ok a') → P a') →
  ∀ a log a', P a → io_foldl f a l env = (log, Ok a') → P a'.
Proof.
  intros Hstep. induction l as [|b l IH]; intros a log a' Ha.
  - cbn. by intros [= _ <-].
  - cbn [io_foldl]. unfold mbind, io_bind.
    destruct (f a b env) as [log1 [a1|e]] eqn:Hf; [| discriminate].
    destruct (io_foldl f a1 l env) as [log2 r] eqn:Hfold.
    intros [= _ ->]. eapply IH; [| exact Hfold]. by eapply Hstep.
Qed.

(** For K > J the loop body continues at once: no file is opened, no
    cell is written, nothing is raised, whatever the environment. *)
Lemma main_cell_skip run grid J J_ind barriers K_ind K env :
  Ks run !! K_ind = Some K → J < K →
  main_cell run grid J J_ind barriers K_ind env = ([], Ok barriers).
Proof.
  intros HK Hlt. unfold main_cell, py_get. rewrite HK, io_bind_lift_ok.
  by rewrite bool_decide_eq_true_2.
Qed.

(** An iteration that returns has written at most its own cell, and only
    when K ≤ J. *)
Lemma main_cell_writes run grid J J_ind barriers K_ind env log barriers' :
  main_cell run grid J J_ind barriers K_ind env = (log, Ok barriers') →
  barriers' = barriers
  ∨ ∃ K v, Ks run !! K_ind = Some K ∧ ¬ J < K
           ∧ barriers' = set_cell barriers K_ind J_ind v.
Proof.
  unfold main_cell.
  destruct (py_get (Ks run) K_ind) as [K|e] eqn:HK;
    [| unfold mbind, io_bind, lift; intros [=]].
  assert (Ks run !! K_ind = Some K) as HK'.
  { unfold py_get in HK. destruct (Ks run !! K_ind); congruence. }
  clear HK. rewrite io_bind_lift_ok.
  case_bool_decide as Hlt; [intros [= _ <-]; by left |].
  case_bool_decide.
  - unfold mbind, io_bind.
    destruct (find_barrier _ _ _ _ _ env) as [log1 [v|e]]; cbn; [| intros [=]].
    intros Heq. inversion Heq; subst. right. exists K, v.
    split; [exact HK' |]. split; [exact Hlt | reflexivity].
  - unfold mbind, io_bind, lift.
    destruct (interpolate_barrier_positions_JK _ _ _ _ env) as [log1 [bps|e]];
      cbn -[py_get get_pathway_index]; [| intros [=]].
    destruct (get_pathway_index _) as [idx|e]; cbn -[py_get]; [| intros [=]].
    destruct (py_get bps idx) as [v|e]; cbn; [| intros [=]].
    intros Heq. inversion Heq; subst. right. exists K, v.
    split; [exact HK' |]. split; [exact Hlt | reflexivity].
Qed.

Section main_loop.

Context (run : parameters) (env : environment).

Lemma main_cell_invariant grid J J_ind barriers K_ind log barriers' :
  Js run !! J_ind = Some J →
  unphysical_cells_zero run barriers →
  main_cell run grid J J_ind barriers K_ind env = (log, Ok barriers') →
  unphysical_cells_zero run barriers'.
Proof.
  intros HJ Hinv [-> | (K & v & HK & Hge & ->)]%main_cell_writes; [exact Hinv |].
  intros K_ind' J_ind' K' J' HK' HJ' Hlt.
  rewrite get_cell_set_cell_ne; [by eapply Hinv |].
  intros [= -> ->]. congruence.
Qed.

Lemma main_column_invariant grid barriers J_ind log barriers' :
  unphysical_cells_zero run barriers →
  main_column run grid barriers J_ind env = (log, Ok barriers') →
  unphysical_cells_zero run barriers'.
Proof.
  intros Hinv. unfold main_column, py_get.
  destruct (Js run !! J_ind) as [J|] eqn:HJ; [| intros [=]].
  rewrite io_bind_lift_ok.
  apply io_foldl_invariant; [| exact Hinv].
  intros a K_ind log1 a'. by apply main_cell_invariant.
Qed.

(** C7: in the matrix [main] produces, every cell whose K exceeds its J
    holds 0, for every molecule, symmetry, pathway and lists of J and K;
    and the loop body of such a cell performs no computation: it opens no
    file and leaves the matrix as it is, in every environment. *)
Theorem main_with_unphysical_cells log barriers K_ind J_ind K J :
  main_with run env = (log, Ok barriers) →
  Ks run !! K_ind = Some K → Js run !! J_ind = Some J → J < K →
  get_cell barriers K_ind J_ind = Some 0%Qc
  ∧ ∀ grid barriers_before env',
      main_cell run grid J J_ind barriers_before K_ind env' = ([], Ok barriers_before).
Proof.
  intros Hmain HK HJ Hlt. split; [| intros; by eapply main_cell_skip].
  revert Hmain. unfold main_with, mbind, io_bind.
  destruct (load_grid (root_path run) env) as [log1 [grid|e]]; [| intros [=]].
  destruct (io_foldl _ _ _ env) as [log2 r] eqn:Hfold. intros [= _ ->].
  eapply (io_foldl_invariant (unphysical_cells_zero run)) in Hfold; [by eapply Hfold | |].
  - intros a J_ind' log' a'. apply main_column_invariant.
  - intros K_ind' J_ind' K' J' HK' HJ' _.
    apply get_cell_replicate; by eapply lookup_lt_Some.
Qed.

End main_loop.

Lemma main_with_unphysical_cells_witness :
  let run := Parameters ["root"] "666" 0 "S" [0; 2] [0; 2] in
  let env := Environment ["."] (list_to_map [
    (["root"; "rho_info.txt"], Table (of_int <$> [1; 2; 3; 4; 5]));
    (["root"; "J_2"; "K_0"; "symmetry_0"; "basis"; "energies_2d.fwc"],
     Table (of_int <$> [0; 1; 5; 1; 0]))]) in
  let log := [["root"; "rho_info.txt"];
              ["root"; "J_2"; "K_0"; "symmetry_0"; "basis"; "energies_2d.fwc"]] in
  let barriers := [[of_int 0; of_int 3]; [of_int 0; of_int 0]] in
  main_with run env = (log, Ok barriers)
  ∧ Ks run !! 1%nat = Some 2
  ∧ Js run !! 0%nat = Some 0
  ∧ 0 < 2
  ∧ get_cell barriers 1 0 = Some 0%Qc.
Proof.
  intros run env log barriers.
  assert (main_with run env = (log, Ok barriers)) as Hmain by by_evaluation.
  assert (Ks run !! 1%nat = Some 2) as HK by reflexivity.
  assert (Js run !! 0%nat = Some 0) as HJ by reflexivity.
  assert (0 < 2) as Hlt by lia.
  repeat (split; [assumption |]).
  exact (proj1 (main_with_unphysical_cells run env log barriers 1 0 2 0 Hmain HK HJ Hlt)).
Defined.

(** * Further properties *)

(** ** The lattice of reference nodes *)

Section lattice.

(** X6: the J bracket encloses J exactly when 4 ≤ J ≤ 56; outside that
    range the interpolation extrapolates from (4, 8) or (52, 56). *)
Theorem select_interpolating_Js_encloses J :
  ∃ J_low J_high,
    select_interpolating_Js J = [J_low; J_high]
    ∧ (J_low ≤ J ≤ J_high ↔ 4 ≤ J ≤ 56)
    ∧ (J < 4 → J_low = 4 ∧ J_high = 8)
    ∧ (56 < J → J_low = 52 ∧ J_high = 56).
Proof.
  unfold select_interpolating_Js.
  repeat case_bool_decide.
  - exists 4, 8. split; [reflexivity |]. lia.
  - exists 52, 56. split; [reflexivity |]. lia.
  - eexists _, _. split; [reflexivity |].
    pose proof (Z.quot_rem' J 4) as Hqr.
    pose proof (Z.rem_bound_pos J 4 ltac:(lia) ltac:(lia)). lia.
Qed.

(** X7: from a J of at least 4 and below 2^1024, where [J / 2] stays
    within the doubles, the K bracket encloses every K between 0 and
    max_K = min(J/2, 20); above max_K it is the last bracket
    (max_K - 2, max_K), below K. *)
Theorem select_interpolating_Ks_encloses J K :
  4 ≤ J → J < 2 ^ 1024 → 0 ≤ K →
  ∃ K_low K_high,
    select_interpolating_Ks J K = [K_low; K_high]
    ∧ (K_low ≤ K ≤ K_high ↔ K ≤ Z.min (J ÷ 2) 20)
    ∧ (Z.min (J ÷ 2) 20 < K → K_low = Z.min (J ÷ 2) 20 - 2 ∧ K_high = Z.min (J ÷ 2) 20).
Proof.
  intros HJ%quot_2_ge _ HK. unfold select_interpolating_Ks. cbv zeta.
  case_bool_decide as Hcmp.
  - eexists _, _. split; [reflexivity |]. lia.
  - eexists _, _. split; [reflexivity |].
    pose proof (Z.quot_rem' K 2) as Hqr.
    pose proof (Z.rem_bound_pos K 2 HK ltac:(lia)). lia.
Qed.

Lemma select_interpolating_Ks_encloses_witness :
  4 ≤ 12 ∧ 12 < 2 ^ 1024 ∧ 0 ≤ 3
  ∧ ∃ K_low K_high,
      select_interpolating_Ks 12 3 = [K_low; K_high]
      ∧ (K_low ≤ 3 ≤ K_high ↔ 3 ≤ Z.min (12 ÷ 2) 20)
      ∧ (Z.min (12 ÷ 2) 20 < 3
         → K_low = Z.min (12 ÷ 2) 20 - 2 ∧ K_high = Z.min (12 ÷ 2) 20).
Proof.
  split; [lia |]. split; [reflexivity |]. split; [lia |].
  apply (select_interpolating_Ks_encloses 12 3); [lia | reflexivity | lia].
Defined.

(** X8: for every J and every K ≥ 0, the brackets that
    [interpolate_barrier_positions_JK] uses lie on the reference lattice:
    J_low is a multiple of 4 between 4 and 52, K_low is even and
    non-negative, and K_high = K_low + 2 is at most min(J_low / 2, 20). *)
Theorem interpolation_nodes_on_lattice J K :
  0 ≤ K →
  ∃ J_low K_low,
    select_interpolating_Js J = [J_low; J_low + 4]
    ∧ select_interpolating_Ks J_low K = [K_low; K_low + 2]
    ∧ 4 ≤ J_low ≤ 52 ∧ J_low `mod` 4 = 0
    ∧ 0 ≤ K_low ∧ K_low `mod` 2 = 0
    ∧ K_low + 2 ≤ Z.min (J_low ÷ 2) 20.
Proof.
  intros HK.
  assert (∃ m, select_interpolating_Js J = [4 * m; 4 * m + 4] ∧ 1 ≤ m ≤ 13)
    as (m & HJs & Hm).
  { unfold select_interpolating_Js. repeat case_bool_decide.
    - exists 1. split; [reflexivity | lia].
    - exists 13. split; [reflexivity | lia].
    - exists (J ÷ 4). split; [f_equal; [lia | f_equal; lia] |].
      pose proof (Z.quot_rem' J 4) as Hqr.
      pose proof (Z.rem_bound_pos J 4 ltac:(lia) ltac:(lia)). lia. }
  assert ((4 * m) ÷ 2 = 2 * m) as Hhalf.
  { replace (4 * m) with (2 * m * 2) by lia. apply Z.quot_mul. lia. }
  exists (4 * m).
  assert (∃ k, select_interpolating_Ks (4 * m) K = [2 * k; 2 * k + 2]
               ∧ 0 ≤ k ∧ 2 * k + 2 ≤ Z.min (2 * m) 20) as (k & HKs & Hk).
  { unfold select_interpolating_Ks. cbv zeta. rewrite Hhalf.
    case_bool_decide as Hcmp.
    - exists (Z.min m 10 - 1). split; [f_equal; [lia | f_equal; lia] | lia].
    - exists (K ÷ 2). split; [f_equal; [lia | f_equal; lia] |].
      pose proof (Z.quot_rem' K 2) as Hqr.
      pose proof (Z.rem_bound_pos K 2 HK ltac:(lia)).
      split; [apply Z.quot_pos; lia | lia]. }
  exists (2 * k). rewrite Hhalf.
  split; [exact HJs |]. split; [exact HKs |].
  split; [lia |]. split; [by rewrite Z.mul_comm, Z.mod_mul by lia |].
  split; [lia |]. split; [by rewrite Z.mul_comm, Z.mod_mul by lia | lia].
Qed.

Lemma interpolation_nodes_on_lattice_witness :
  0 ≤ 7
  ∧ ∃ J_low K_low,
      select_interpolating_Js 30 = [J_low; J_low + 4]
      ∧ select_interpolating_Ks J_low 7 = [K_low; K_low + 2]
      ∧ 4 ≤ J_low ≤ 52 ∧ J_low `mod` 4 = 0
      ∧ 0 ≤ K_low ∧ K_low `mod` 2 = 0
      ∧ K_low + 2 ≤ Z.min (J_low ÷ 2) 20.
Proof.
  split; [lia |]. apply (interpolation_nodes_on_lattice 30 7). lia.
Defined.

End lattice.

(** ** The channels file *)

Section scan_extra.

Implicit Types (channel_lines : list channel_line) (barrier_positions : list Qc).

(** An item assignment keeps the length. *)
Lemma py_setitem_length {A} (l : list A) i a l' :
  py_setitem l i a = Ok l' → length l' = length l.
Proof.
  unfold py_setitem. destruct (py_position _ _); [| discriminate].
  intros [= <-]. apply length_insert.
Qed.

(** The scan keeps the number of slots. *)
Lemma scan_channel_lines_length channel_lines barrier_positions barrier_positions' :
  scan_channel_lines channel_lines barrier_positions = Ok barrier_positions' →
  length barrier_positions' = length barrier_positions.
Proof.
  revert barrier_positions.
  induction channel_lines as [|line channel_lines IH]; intros bp; [by intros [= <-] |].
  cbn [scan_channel_lines].
  destruct (py_index bp (group line - 1)) as [current|e]; [| discriminate].
  cbn [mbind result_bind].
  destruct (bool_decide (current = 0%Qc)).
  - destruct (py_setitem _ _ _) as [bp'|e] eqn:Hset; [| discriminate].
    cbn [mbind result_bind]. apply py_setitem_length in Hset.
    destruct (forallb _ _); [intros [= <-]; done | intros ?%IH; congruence].
  - cbn [mbind result_bind].
    destruct (forallb _ _); [intros [= <-]; done | apply IH].
Qed.

(** The scan of a file in two parts: the second part is read only if the
    first leaves a slot unfilled. *)
Lemma scan_channel_lines_app channel_lines more barrier_positions :
  forallb (λ position, bool_decide (0 < position)%Qc) barrier_positions = false →
  scan_channel_lines (channel_lines ++ more) barrier_positions
  = match scan_channel_lines channel_lines barrier_positions with
    | Ok filled =>
        if forallb (λ position, bool_decide (0 < position)%Qc) filled then Ok filled
        else scan_channel_lines more filled
    | Err e => Err e
    end.
Proof.
  revert barrier_positions.
  induction channel_lines as [|line channel_lines IH]; intros bp Hopen.
  - cbn [app scan_channel_lines]. by rewrite Hopen.
  - cbn [app scan_channel_lines].
    destruct (py_index bp (group line - 1)) as [current|e]; [| reflexivity].
    cbn [mbind result_bind].
    destruct (if bool_decide (current = 0%Qc) then _ else _) as [bp'|e]; [| reflexivity].
    cbn [mbind result_bind].
    destruct (forallb _ bp') eqn:Hfilled; [by rewrite Hfilled | by apply IH].
Qed.

(** Negative indices and their wrapped positions select the same slot. *)
Lemma py_position_wrap (g : Z) :
  -2 ≤ g ≤ 3 →
  py_position 3 (g - 1)
  = py_position 3 ((if bool_decide (g ≤ 0) then g + 3 else g) - 1).
Proof.
  intros Hg. case_bool_decide; [| reflexivity].
  unfold py_position. repeat case_bool_decide; try lia. f_equal. lia.
Qed.

(** Group identifiers 0, -1 and -2 are read as 3, 2 and 1. *)
Lemma scan_channel_lines_wrap channel_lines barrier_positions :
  length barrier_positions = 3%nat →
  Forall (λ line, -2 ≤ group line ≤ 3) channel_lines →
  scan_channel_lines channel_lines barrier_positions
  = scan_channel_lines (wrap_group <$> channel_lines) barrier_positions.
Proof.
  intros Hlen Hgroups. revert barrier_positions Hlen.
  induction Hgroups as [|line channel_lines Hg _ IH]; intros bp Hlen; [reflexivity |].
  cbn [fmap list_fmap scan_channel_lines wrap_group group position].
  unfold py_index, py_setitem. rewrite Hlen, <- (py_position_wrap _ Hg).
  destruct (py_position 3 (group line - 1)) as [n|]; [| reflexivity].
  destruct (py_get bp n) as [current|e]; [| reflexivity].
  cbn [mbind result_bind].
  destruct (bool_decide (current = 0%Qc)); cbn [mbind result_bind];
    (destruct (forallb _ _); [reflexivity | apply IH]).
  - by rewrite length_insert.
  - done.
Qed.

(** X9: whenever [load_lowest_barrier_info] returns, it has opened the
    channels file and nothing else, and it returns exactly three values. *)
Theorem load_lowest_barrier_info_length env channels_file_path log barrier_positions :
  load_lowest_barrier_info channels_file_path env = (log, Ok barrier_positions) →
  length barrier_positions = 3%nat ∧ log = [channels_file_path].
Proof.
  rewrite load_lowest_barrier_info_log. intros [= <- Hload]. split; [| reflexivity].
  revert Hload. unfold load_lowest_barrier_info, mbind, io_bind, readlines, lift.
  destruct (files env !! channels_file_path) as [[column|channel_lines]|];
    cbn [snd]; try discriminate.
  by intros ?%scan_channel_lines_length.
Qed.

(** X10: group identifiers are used as Python indices: a file whose
    groups lie between -2 and 3 loads without error, and its groups 0, -1
    and -2 fill the channels 3, 2 and 1. *)
Theorem load_lowest_barrier_info_wraps env channels_file_path channel_lines :
  files env !! channels_file_path = Some (Channels channel_lines) →
  Forall (λ line, -2 ≤ group line ≤ 3) channel_lines →
  load_lowest_barrier_info channels_file_path env
  = ([channels_file_path],
     Ok [first_nonzero 1 (wrap_group <$> channel_lines);
         first_nonzero 2 (wrap_group <$> channel_lines);
         first_nonzero 3 (wrap_group <$> channel_lines)]).
Proof.
  intros Hfile Hgroups.
  unfold load_lowest_barrier_info, mbind, io_bind, readlines, lift. rewrite Hfile.
  rewrite scan_channel_lines_wrap by done.
  change (replicate 3 0%Qc) with [0%Qc; 0%Qc; 0%Qc].
  rewrite scan_channel_lines_slots; [reflexivity |].
  apply Forall_fmap. eapply Forall_impl; [exact Hgroups |].
  intros line Hg. cbn beta in Hg. unfold compose, wrap_group. cbn [group]. case_bool_decide; lia.
Qed.

(** X11: the early [break]: once the lines read so far give each of the
    three channels a strictly positive value, the rest of the file is not
    read; whatever follows, malformed groups included, the result is that
    of the lines read. *)
Theorem load_lowest_barrier_info_break env channels_file_path channel_lines more :
  files env !! channels_file_path = Some (Channels (channel_lines ++ more)) →
  Forall (λ line, 1 ≤ group line ≤ 3) channel_lines →
  (0 < first_nonzero 1 channel_lines)%Qc →
  (0 < first_nonzero 2 channel_lines)%Qc →
  (0 < first_nonzero 3 channel_lines)%Qc →
  load_lowest_barrier_info channels_file_path env
  = ([channels_file_path],
     Ok [first_nonzero 1 channel_lines; first_nonzero 2 channel_lines;
         first_nonzero 3 channel_lines]).
Proof.
  intros Hfile Hgroups H1 H2 H3.
  unfold load_lowest_barrier_info, mbind, io_bind, readlines, lift. rewrite Hfile.
  change (replicate 3 0%Qc) with [0%Qc; 0%Qc; 0%Qc].
  rewrite scan_channel_lines_app by reflexivity.
  rewrite scan_channel_lines_slots by done.
  rewrite !(bool_decide_eq_true_2 (0%Qc = 0%Qc)) by done.
  cbn [forallb]. by rewrite !bool_decide_eq_true_2 by done.
Qed.

(** X12: a line whose group is below -2 or above 3, met while a channel
    is still without a strictly positive value, makes
    [load_lowest_barrier_info] raise [IndexError]. *)
Theorem load_lowest_barrier_info_bad_group env channels_file_path channel_lines line more :
  files env !! channels_file_path = Some (Channels (channel_lines ++ line :: more)) →
  Forall (λ line, 1 ≤ group line ≤ 3) channel_lines →
  ¬ ((0 < first_nonzero 1 channel_lines)%Qc ∧ (0 < first_nonzero 2 channel_lines)%Qc
     ∧ (0 < first_nonzero 3 channel_lines)%Qc) →
  group line < -2 ∨ 3 < group line →
  load_lowest_barrier_info channels_file_path env = ([channels_file_path], Err IndexError).
Proof.
  intros Hfile Hgroups Hopen Hbad.
  unfold load_lowest_barrier_info, mbind, io_bind, readlines, lift. rewrite Hfile.
  change (replicate 3 0%Qc) with [0%Qc; 0%Qc; 0%Qc].
  rewrite scan_channel_lines_app by reflexivity.
  rewrite scan_channel_lines_slots by done.
  rewrite !(bool_decide_eq_true_2 (0%Qc = 0%Qc)) by done.
  destruct (forallb _ _) eqn:Hfilled.
  - exfalso. apply Hopen. cbn [forallb] in Hfilled.
    rewrite !andb_true_iff, !bool_decide_eq_true in Hfilled. tauto.
  - cbn [scan_channel_lines]. unfold py_index, py_position. cbn [length].
    by rewrite !bool_decide_eq_false_2 by lia.
Qed.

Lemma load_lowest_barrier_info_length_witness :
  let channel_lines := [ChannelLine 2 (of_int 7); ChannelLine 1 (of_int 3)] in
  let env := Environment ["."] {[ ["channels.dat"] := Channels channel_lines ]} in
  load_lowest_barrier_info ["channels.dat"] env
  = ([["channels.dat"]], Ok [of_int 3; of_int 7; of_int 0])
  ∧ length [of_int 3; of_int 7; of_int 0] = 3%nat.
Proof.
  intros channel_lines env.
  assert (load_lowest_barrier_info ["channels.dat"] env
          = ([["channels.dat"]], Ok [of_int 3; of_int 7; of_int 0])) as Hload
    by by_evaluation.
  split; [exact Hload |].
  exact (proj1 (load_lowest_barrier_info_length env ["channels.dat"] _ _ Hload)).
Defined.

Lemma load_lowest_barrier_info_wraps_witness :
  let channel_lines := [ChannelLine 0 (of_int 5); ChannelLine (-2) (of_int 4)] in
  let env := Environment ["."] {[ ["channels.dat"] := Channels channel_lines ]} in
  files env !! ["channels.dat"] = Some (Channels channel_lines)
  ∧ Forall (λ line, -2 ≤ group line ≤ 3) channel_lines
  ∧ load_lowest_barrier_info ["channels.dat"] env
    = ([["channels.dat"]],
       Ok [first_nonzero 1 (wrap_group <$> channel_lines);
           first_nonzero 2 (wrap_group <$> channel_lines);
           first_nonzero 3 (wrap_group <$> channel_lines)])
  ∧ first_nonzero 1 (wrap_group <$> channel_lines) = of_int 4
  ∧ first_nonzero 3 (wrap_group <$> channel_lines) = of_int 5.
Proof.
  intros channel_lines env.
  assert (files env !! ["channels.dat"] = Some (Channels channel_lines)) as Hfile
    by reflexivity.
  assert (Forall (λ line, -2 ≤ group line ≤ 3) channel_lines) as Hgroups
    by (repeat constructor; cbn; lia).
  split; [exact Hfile |]. split; [exact Hgroups |].
  split; [| split; reflexivity].
  exact (load_lowest_barrier_info_wraps env ["channels.dat"] channel_lines Hfile Hgroups).
Defined.

Lemma load_lowest_barrier_info_break_witness :
  let channel_lines :=
    [ChannelLine 1 (of_int 3); ChannelLine 2 (of_int 4); ChannelLine 3 (of_int 5)] in
  let more := [ChannelLine 9 (of_int 1); ChannelLine 1 (of_int 8)] in
  let env := Environment ["."] {[ ["channels.dat"] := Channels (channel_lines ++ more) ]} in
  files env !! ["channels.dat"] = Some (Channels (channel_lines ++ more))
  ∧ Forall (λ line, 1 ≤ group line ≤ 3) channel_lines
  ∧ (0 < first_nonzero 1 channel_lines)%Qc
  ∧ (0 < first_nonzero 2 channel_lines)%Qc
  ∧ (0 < first_nonzero 3 channel_lines)%Qc
  ∧ load_lowest_barrier_info ["channels.dat"] env
    = ([["channels.dat"]],
       Ok [first_nonzero 1 channel_lines; first_nonzero 2 channel_lines;
           first_nonzero 3 channel_lines]).
Proof.
  intros channel_lines more env.
  assert (files env !! ["channels.dat"] = Some (Channels (channel_lines ++ more)))
    as Hfile by reflexivity.
  assert (Forall (λ line, 1 ≤ group line ≤ 3) channel_lines) as Hgroups
    by (repeat constructor; cbn; lia).
  assert (0 < first_nonzero 1 channel_lines)%Qc as H1 by by_evaluation.
  assert (0 < first_nonzero 2 channel_lines)%Qc as H2 by by_evaluation.
  assert (0 < first_nonzero 3 channel_lines)%Qc as H3 by by_evaluation.
  repeat (split; [assumption |]).
  exact (load_lowest_barrier_info_break env ["channels.dat"] channel_lines more
           Hfile Hgroups H1 H2 H3).
Defined.

Lemma load_lowest_barrier_info_bad_group_witness :
  let channel_lines := [ChannelLine 1 (of_int 3); ChannelLine 2 (of_int 4)] in
  let line := ChannelLine 4 (of_int 5) in
  let more := [ChannelLine 3 (of_int 6)] in
  let env :=
    Environment ["."] {[ ["channels.dat"] := Channels (channel_lines ++ line :: more) ]} in
  files env !! ["channels.dat"] = Some (Channels (channel_lines ++ line :: more))
  ∧ Forall (λ line, 1 ≤ group line ≤ 3) channel_lines
  ∧ ¬ ((0 < first_nonzero 1 channel_lines)%Qc ∧ (0 < first_nonzero 2 channel_lines)%Qc
       ∧ (0 < first_nonzero 3 channel_lines)%Qc)
  ∧ (group line < -2 ∨ 3 < group line)
  ∧ load_lowest_barrier_info ["channels.dat"] env = ([["channels.dat"]], Err IndexError).
Proof.
  intros channel_lines line more env.
  assert (files env !! ["channels.dat"] = Some (Channels (channel_lines ++ line :: more)))
    as Hfile by reflexivity.
  assert (Forall (λ line, 1 ≤ group line ≤ 3) channel_lines) as Hgroups
    by (repeat constructor; cbn; lia).
  assert (¬ ((0 < first_nonzero 1 channel_lines)%Qc
             ∧ (0 < first_nonzero 2 channel_lines)%Qc
             ∧ (0 < first_nonzero 3 channel_lines)%Qc)) as Hopen by by_evaluation.
  assert (group line < -2 ∨ 3 < group line) as Hbad by (right; cbn; lia).
  repeat (split; [assumption |]).
  exact (load_lowest_barrier_info_bad_group env ["channels.dat"] channel_lines line more
           Hfile Hgroups Hopen Hbad).
Defined.

End scan_extra.

(** ** The paths of the channels files, continued *)

Section channel_paths.

(** Strings with suffixes of equal lengths are equal part by part. *)
Lemma string_app_inj_length (s1 s2 t1 t2 : string) :
  String.length t1 = String.length t2 →
  s1 +:+ t1 = s2 +:+ t2 → s1 = s2 ∧ t1 = t2.
Proof.
  intros Hlen. revert s2. induction s1 as [|a s1 IH]; intros [|b s2] Heq.
  - by split.
  - apply (f_equal String.length) in Heq.
    rewrite !string_app_length in Heq. simpl in Heq. lia.
  - apply (f_equal String.length) in Heq.
    rewrite !string_app_length in Heq. simpl in Heq. lia.
  - simpl in Heq. injection Heq as -> Heq.
    destruct (IH _ Heq) as [-> ->]. by split.
Qed.

(** The two symmetry codes and their letters. *)
Lemma get_symmetry_letter_ok sym_code letter :
  get_symmetry_letter sym_code = Ok letter →
  (sym_code = 0 ∧ letter = "S") ∨ (sym_code = 1 ∧ letter = "A").
Proof.
  unfold get_symmetry_letter. repeat case_bool_decide; intros [= <-]; auto.
Qed.

(** X13: the channels file identifies its state: in one script folder, two
    calls of [get_channels_file_path] that return the same path were given
    the same molecule, the same J, the same K and the same symmetry.  The
    molecule names hold no path separator, so that each is one component
    of the path. *)
Theorem get_channels_file_path_injective folder molecule J K sym molecule' J' K' sym' p :
  has_separator molecule = false → has_separator molecule' = false →
  get_channels_file_path folder molecule J K sym = Ok p →
  get_channels_file_path folder molecule' J' K' sym' = Ok p →
  molecule = molecule' ∧ J = J' ∧ K = K' ∧ sym = sym'.
Proof.
  intros _ _. unfold get_channels_file_path.
  destruct (get_symmetry_letter sym) as [letter|] eqn:Hsym; [| discriminate].
  destruct (get_symmetry_letter sym') as [letter'|] eqn:Hsym'; [| discriminate].
  cbn [mbind result_bind]. intros [= <-] [= Heq%(inj (app folder))].
  injection Heq as Hmolecule HJ HK. simpl in HJ, HK.
  apply string_app_inj_r in Hmolecule. apply (format_02_inj J' J) in HJ.
  apply get_symmetry_letter_ok in Hsym, Hsym'.
  apply (string_app_inj_length (format_02 K') (format_02 K) letter' letter)
    in HK as [HK Hletter].
  - apply (format_02_inj K' K) in HK. repeat split; [done | done | done |].
    destruct Hsym as [[-> ->]|[-> ->]], Hsym' as [[-> ->]|[-> ->]]; done.
  - by destruct Hsym as [[_ ->]|[_ ->]], Hsym' as [[_ ->]|[_ ->]].
Qed.

Lemma get_channels_file_path_injective_witness :
  let p := ["."; "script_data"; "868_full"; "J04"; "K02S"; "channels.dat"] in
  has_separator "868" = false
  ∧ get_channels_file_path ["."] "868" 4 2 0 = Ok p
  ∧ ("868" = "868" ∧ 4 = 4 ∧ 2 = 2 ∧ 0 = 0).
Proof.
  intros p.
  assert (has_separator "868" = false) as Hname by reflexivity.
  assert (get_channels_file_path ["."] "868" 4 2 0 = Ok p) as Hp by (vm_compute; reflexivity).
  split; [exact Hname |]. split; [exact Hp |].
  exact (get_channels_file_path_injective ["."] "868" 4 2 0 "868" 4 2 0 p Hname Hname Hp Hp).
Defined.

End channel_paths.

(** ** The interpolation in closed form *)

Section plane.

(** A record that loads has three positions. *)
Lemma load_lowest_barrier_info_ok_length p env c :
  (load_lowest_barrier_info p env).2 = Ok c → length c = 3%nat.
Proof.
  unfold load_lowest_barrier_info, mbind, io_bind, readlines, lift.
  destruct (files env !! p) as [[column|channel_lines]|]; cbn; [discriminate | | discriminate].
  intros Hscan. by apply scan_channel_lines_length in Hscan.
Qed.

Lemma py_get_at_index (c : list Qc) (i : nat) :
  (i < length c)%nat → py_get c i = Ok (at_index c i).
Proof.
  intros Hi. unfold py_get, at_index.
  destruct (lookup_lt_is_Some_2 c i Hi) as [v ->]. reflexivity.
Qed.

Lemma of_int_sub (m n : Z) : (of_int m - of_int n = of_int (m - n))%Qc.
Proof. unfold of_int. by rewrite Z2Qc_inj_sub. Qed.

(** One channel of the interpolation, on records of three positions. *)
Lemma interpolate_channel_eval J_low K_low c00 c01 c10 c11 J K i :
  (i < 3)%nat → length c00 = 3%nat → length c01 = 3%nat → length c10 = 3%nat →
  interpolate_channel [J_low; J_low + 4] [K_low; K_low + 2] [[c00; c01]; [c10; c11]] J K i
  = Ok (plane_value (at_index c00 i) (at_index c10 i) (at_index c01 i) (J - J_low) (K - K_low)).
Proof.
  intros Hi H00 H01 H10. unfold interpolate_channel.
  cbn [py_get lookup list_lookup mbind result_bind].
  change (match c00 !! i with Some a => Ok a | None => Err IndexError end) with (py_get c00 i).
  change (match c10 !! i with Some a => Ok a | None => Err IndexError end) with (py_get c10 i).
  change (match c01 !! i with Some a => Ok a | None => Err IndexError end) with (py_get c01 i).
  rewrite !py_get_at_index by lia. cbn [mbind result_bind].
  rewrite linear_interpolation_2d_ok by lia. f_equal.
  rewrite !of_int_sub.
  replace (J_low + 4 - J_low) with 4 by lia. replace (K_low + 2 - K_low) with 2 by lia.
  unfold plane_value.
  generalize (of_int 4) (of_int 2) (of_int (J - J_low)) (of_int (K - K_low))
    (at_index c00 i) (at_index c10 i) (at_index c01 i).
  intros four two dJ dK v00 v10 v01. unfold Qcdiv. ring.
Qed.


Lemma interpolate_known_barrier_positions_eval J_low K_low c00 c01 c10 c11 J K :
  length c00 = 3%nat → length c01 = 3%nat → length c10 = 3%nat →
  interpolate_known_barrier_positions [J_low; J_low + 4] [K_low; K_low + 2]
    [[c00; c01]; [c10; c11]] J K
  = Ok ((λ i, plane_value (at_index c00 i) (at_index c10 i) (at_index c01 i)
                (J - J_low) (K - K_low)) <$> [0; 1; 2]%nat).
Proof.
  intros H00 H01 H10. unfold interpolate_known_barrier_positions.
  cbn [py_get lookup list_lookup mbind result_bind]. rewrite H00.
  cbn [seq mapM].
  rewrite !(interpolate_channel_eval J_low K_low c00 c01 c10 c11 J K) by (done || lia).
  reflexivity.
Qed.

(** With the four records loaded, the call returns the plane values. *)
Lemma interpolate_barrier_positions_JK_loaded env molecule J K symmetry J_low J_high K_low K_high
    p00 p01 p10 p11 c00 c01 c10 c11 :
  select_interpolating_Js J = [J_low; J_high] →
  select_interpolating_Ks J_low K = [K_low; K_high] →
  get_channels_file_path (script_folder env) molecule J_low K_low symmetry = Ok p00 →
  get_channels_file_path (script_folder env) molecule J_low K_high symmetry = Ok p01 →
  get_channels_file_path (script_folder env) molecule J_high K_low symmetry = Ok p10 →
  get_channels_file_path (script_folder env) molecule J_high K_high symmetry = Ok p11 →
  (load_lowest_barrier_info p00 env).2 = Ok c00 →
  (load_lowest_barrier_info p01 env).2 = Ok c01 →
  (load_lowest_barrier_info p10 env).2 = Ok c10 →
  (load_lowest_barrier_info p11 env).2 = Ok c11 →
  J_high = J_low + 4 ∧ K_high = K_low + 2
  ∧ length c00 = 3%nat ∧ length c01 = 3%nat ∧ length c10 = 3%nat
  ∧ interpolate_barrier_positions_JK molecule J K symmetry env
    = ([p00; p01; p10; p11],
       Ok ((λ i, plane_value (at_index c00 i) (at_index c10 i) (at_index c01 i)
                   (J - J_low) (K - K_low)) <$> [0; 1; 2]%nat)).
Proof.
  intros HJs HKs H00 H01 H10 H11 L00 L01 L10 L11.
  destruct (select_interpolating_Js_shape J) as (J_low' & HJs' & HJ_low).
  rewrite HJs in HJs'. injection HJs' as <- ->.
  destruct (select_interpolating_Ks_shape J_low K HJ_low) as (K_low' & HKs').
  rewrite HKs in HKs'. injection HKs' as <- ->.
  pose proof (load_lowest_barrier_info_ok_length _ _ _ L00) as N00.
  pose proof (load_lowest_barrier_info_ok_length _ _ _ L01) as N01.
  pose proof (load_lowest_barrier_info_ok_length _ _ _ L10) as N10.
  repeat (split; [done |]).
  rewrite (interpolate_barrier_positions_JK_eval _ _ _ _ _ _ _ _ _ HJs HKs).
  rewrite (load_known_barrier_positions_eval _ _ _ _ _ _ _ _ _ _ _ H00 H01 H10 H11).
  rewrite L00, L01, L10, L11.
  by rewrite interpolate_known_barrier_positions_eval.
Qed.

Lemma at_index_triple (c : list Qc) :
  length c = 3%nat → at_index c <$> [0; 1; 2]%nat = c.
Proof. destruct c as [|a [|b [|d [|? ?]]]]; try discriminate. reflexivity. Qed.

Lemma plane_value_node v_00 v_10 v_01 : plane_value v_00 v_10 v_01 0 0 = v_00.
Proof.
  unfold plane_value, of_int. rewrite Z2Qc_inj_0.
  generalize (Qc_of_Z 4) (Qc_of_Z 2). intros four two. unfold Qcdiv. ring.
Qed.

(** X15: at a lattice node that is the lower corner of its own brackets
    the interpolation reproduces the record stored for this node. *)
Theorem interpolate_barrier_positions_JK_node env molecule J K symmetry J_high K_high
    p00 p01 p10 p11 c00 c01 c10 c11 :
  select_interpolating_Js J = [J; J_high] →
  select_interpolating_Ks J K = [K; K_high] →
  get_channels_file_path (script_folder env) molecule J K symmetry = Ok p00 →
  get_channels_file_path (script_folder env) molecule J K_high symmetry = Ok p01 →
  get_channels_file_path (script_folder env) molecule J_high K symmetry = Ok p10 →
  get_channels_file_path (script_folder env) molecule J_high K_high symmetry = Ok p11 →
  (load_lowest_barrier_info p00 env).2 = Ok c00 →
  (load_lowest_barrier_info p01 env).2 = Ok c01 →
  (load_lowest_barrier_info p10 env).2 = Ok c10 →
  (load_lowest_barrier_info p11 env).2 = Ok c11 →
  (interpolate_barrier_positions_JK molecule J K symmetry env).2 = Ok c00.
Proof.
  intros HJs HKs H00 H01 H10 H11 L00 L01 L10 L11.
  destruct (interpolate_barrier_positions_JK_loaded _ _ _ _ _ _ _ _ _ _ _ _ _ _ _ _ _
              HJs HKs H00 H01 H10 H11 L00 L01 L10 L11) as (_ & _ & N00 & _ & _ & ->).
  cbn [snd]. f_equal. rewrite !Z.sub_diag.
  transitivity (at_index c00 <$> [0; 1; 2]%nat); [| by apply at_index_triple].
  apply list_fmap_ext. intros _ i _. apply plane_value_node.
Qed.

Lemma interpolate_barrier_positions_JK_node_witness :
  let c00 := of_int <$> [3; 4; 5] in
  let c01 := of_int <$> [5; 6; 7] in
  let c10 := of_int <$> [7; 8; 9] in
  let c11 := of_int <$> [1; 1; 1] in
  let record c := Channels (zip_with ChannelLine [1; 2; 3] c) in
  let p00 := ["."; "script_data"; "868_full"; "J12"; "K02S"; "channels.dat"] in
  let p01 := ["."; "script_data"; "868_full"; "J12"; "K04S"; "channels.dat"] in
  let p10 := ["."; "script_data"; "868_full"; "J16"; "K02S"; "channels.dat"] in
  let p11 := ["."; "script_data"; "868_full"; "J16"; "K04S"; "channels.dat"] in
  let env := Environment ["."] (list_to_map [(p00, record c00); (p01, record c01);
                                             (p10, record c10); (p11, record c11)]) in
  select_interpolating_Js 12 = [12; 16]
  ∧ select_interpolating_Ks 12 2 = [2; 4]
  ∧ get_channels_file_path (script_folder env) "868" 12 2 0 = Ok p00
  ∧ get_channels_file_path (script_folder env) "868" 12 4 0 = Ok p01
  ∧ get_channels_file_path (script_folder env) "868" 16 2 0 = Ok p10
  ∧ get_channels_file_path (script_folder env) "868" 16 4 0 = Ok p11
  ∧ (load_lowest_barrier_info p00 env).2 = Ok c00
  ∧ (load_lowest_barrier_info p01 env).2 = Ok c01
  ∧ (load_lowest_barrier_info p10 env).2 = Ok c10
  ∧ (load_lowest_barrier_info p11 env).2 = Ok c11
  ∧ (interpolate_barrier_positions_JK "868" 12 2 0 env).2 = Ok c00.
Proof.
  intros c00 c01 c10 c11 record p00 p01 p10 p11 env.
  assert (select_interpolating_Js 12 = [12; 16]) as HJs by reflexivity.
  assert (select_interpolating_Ks 12 2 = [2; 4]) as HKs by reflexivity.
  assert (get_channels_file_path (script_folder env) "868" 12 2 0 = Ok p00) as H00
    by (vm_compute; reflexivity).
  assert (get_channels_file_path (script_folder env) "868" 12 4 0 = Ok p01) as H01
    by (vm_compute; reflexivity).
  assert (get_channels_file_path (script_folder env) "868" 16 2 0 = Ok p10) as H10
    by (vm_compute; reflexivity).
  assert (get_channels_file_path (script_folder env) "868" 16 4 0 = Ok p11) as H11
    by (vm_compute; reflexivity).
  assert ((load_lowest_barrier_info p00 env).2 = Ok c00) as L00 by by_evaluation.
  assert ((load_lowest_barrier_info p01 env).2 = Ok c01) as L01 by by_evaluation.
  assert ((load_lowest_barrier_info p10 env).2 = Ok c10) as L10 by by_evaluation.
  assert ((load_lowest_barrier_info p11 env).2 = Ok c11) as L11 by by_evaluation.
  repeat (split; [assumption |]).
  exact (interpolate_barrier_positions_JK_node env "868" 12 2 0 16 4 p00 p01 p10 p11
           c00 c01 c10 c11 HJs HKs H00 H01 H10 H11 L00 L01 L10 L11).
Defined.

End plane.

(** ** The exceptions raised *)

Section raised.

(** An exception of a sequence is raised by one of its two parts. *)
Lemma result_bind_err {A B} (m : result A) (f : A → result B) e :
  m ≫= f = Err e → m = Err e ∨ ∃ a, m = Ok a ∧ f a = Err e.
Proof. destruct m as [a|e']; cbn; [right; by exists a | left; congruence]. Qed.

Lemma io_bind_err {A B} (m : io A) (f : A → io B) env e :
  ((m ≫= f) env).2 = Err e →
  (m env).2 = Err e ∨ ∃ a, (m env).2 = Ok a ∧ (f a env).2 = Err e.
Proof.
  unfold mbind, io_bind. destruct (m env) as [log [a|e']]; cbn.
  - destruct (f a env) as [log' r] eqn:Hf. cbn. intros ->. right. exists a. by rewrite Hf.
  - intros [= ->]. by left.
Qed.

Lemma result_mapM_err {A B} (f : A → result B) (l : list A) e :
  mapM f l = Err e → ∃ a, a ∈ l ∧ f a = Err e.
Proof.
  induction l as [|a l IH]; [discriminate |]. cbn [mapM].
  intros [Hf | (b & _ & [Hl | (bs & _ & [=])]%result_bind_err)]%result_bind_err.
  - exists a. split; [left | exact Hf].
  - destruct (IH Hl) as (a' & Hin & Hf). exists a'. split; [by right | exact Hf].
Qed.

Lemma io_mapM_err {A B} (f : A → io B) (l : list A) env e :
  (mapM f l env).2 = Err e → ∃ a, a ∈ l ∧ (f a env).2 = Err e.
Proof.
  induction l as [|a l IH]; [discriminate |]. cbn [mapM].
  intros [Hf | (b & _ & [Hl | (bs & _ & [=])]%io_bind_err)]%io_bind_err.
  - exists a. split; [left | exact Hf].
  - destruct (IH Hl) as (a' & Hin & Hf). exists a'. split; [by right | exact Hf].
Qed.

Lemma io_foldl_err {A B} (f : A → B → io A) (l : list B) a env e :
  (io_foldl f a l env).2 = Err e → ∃ a' b, b ∈ l ∧ (f a' b env).2 = Err e.
Proof.
  revert a. induction l as [|b l IH]; intros a; [discriminate |]. cbn [io_foldl].
  intros [Hf | (a1 & _ & Hl)]%io_bind_err.
  - exists a, b. split; [left | exact Hf].
  - destruct (IH _ Hl) as (a' & b' & Hin & Hf). exists a', b'. split; [by right | exact Hf].
Qed.

Lemma lift_err {A} (r : result A) env e : (lift r env).2 = Err e → r = Err e.
Proof. done. Qed.

Lemma load_lowest_barrier_info_err p env e :
  (load_lowest_barrier_info p env).2 = Err e →
  e = FileNotFoundError ∨ e = OutsideModel ∨ e = IndexError.
Proof.
  unfold load_lowest_barrier_info.
  intros [Hread | (channel_lines & _ & Hscan%lift_err)]%io_bind_err.
  - revert Hread. unfold readlines. cbn.
    destruct (files env !! p) as [[column|channel_lines]|]; intros [= <-]; auto.
  - apply scan_channel_lines_error in Hscan. auto.
Qed.

Lemma get_symmetry_letter_err sym_code e :
  get_symmetry_letter sym_code = Err e →
  e = WrongSymmetryCode ∧ sym_code ≠ 0 ∧ sym_code ≠ 1.
Proof. unfold get_symmetry_letter. repeat case_bool_decide; intros [= <-]; auto. Qed.

Lemma get_channels_file_path_err folder molecule J K sym e :
  get_channels_file_path folder molecule J K sym = Err e →
  e = WrongSymmetryCode ∧ sym ≠ 0 ∧ sym ≠ 1.
Proof.
  unfold get_channels_file_path.
  intros [Hletter | (letter & _ & [=])]%result_bind_err.
  by apply get_symmetry_letter_err.
Qed.

Lemma load_known_barrier_positions_err molecule Js_interp Ks_interp symmetry env e :
  (load_known_barrier_positions molecule Js_interp Ks_interp symmetry env).2 = Err e →
  (e = WrongSymmetryCode ∧ symmetry ≠ 0 ∧ symmetry ≠ 1)
  ∨ e = FileNotFoundError ∨ e = OutsideModel ∨ e = IndexError.
Proof.
  unfold load_known_barrier_positions.
  intros [[=] | (folder & _ & Hrows)]%io_bind_err.
  apply io_mapM_err in Hrows as (J_i & _ & Hrow).
  apply io_mapM_err in Hrow as (K_j & _ & Hcell).
  apply io_bind_err in Hcell as [Hpath%lift_err | (p & _ & Hload)].
  - left. by eapply get_channels_file_path_err.
  - right. apply io_bind_err in Hload as [Hload | (c & _ & [=])].
    by eapply load_lowest_barrier_info_err.
Qed.

Lemma interpolate_channel_err J_low K_low known J K i e :
  interpolate_channel [J_low; J_low + 4] [K_low; K_low + 2] known J K i = Err e →
  e = IndexError.
Proof.
  unfold interpolate_channel.
  cbn [mbind result_bind py_get lookup list_lookup].
  repeat (intros [?%py_get_error | (? & _ & Herr)]%result_bind_err; [done | revert Herr]).
  by rewrite linear_interpolation_2d_ok by lia.
Qed.

Lemma interpolate_barrier_positions_JK_err env molecule J K symmetry e :
  (interpolate_barrier_positions_JK molecule J K symmetry env).2 = Err e →
  (e = WrongSymmetryCode ∧ symmetry ≠ 0 ∧ symmetry ≠ 1)
  ∨ e = FileNotFoundError ∨ e = OutsideModel ∨ e = IndexError.
Proof.
  destruct (select_interpolating_Js_shape J) as (J_low & HJs & HJ_low).
  destruct (select_interpolating_Ks_shape J_low K HJ_low) as (K_low & HKs).
  unfold interpolate_barrier_positions_JK. rewrite HJs.
  change (py_get [J_low; J_low + 4] 0) with (Ok J_low).
  rewrite io_bind_lift_ok, HKs.
  intros [Hload | (known & _ & Hinterp%lift_err)]%io_bind_err.
  - by eapply load_known_barrier_positions_err.
  - right. right. right. revert Hinterp. unfold interpolate_known_barrier_positions.
    repeat (intros [?%py_get_error | (? & _ & Herr)]%result_bind_err; [done | revert Herr]).
    intros (i & _ & Hchannel)%result_mapM_err. by eapply interpolate_channel_err.
Qed.

Lemma load_known_barrier_positions_wrong_symmetry molecule J_0 Js_interp K_0 Ks_interp
    symmetry env :
  symmetry ≠ 0 → symmetry ≠ 1 →
  load_known_barrier_positions molecule (J_0 :: Js_interp) (K_0 :: Ks_interp) symmetry env
  = ([], Err WrongSymmetryCode).
Proof.
  intros H0 H1. unfold load_known_barrier_positions. cbn [mapM].
  unfold mbind, io_bind, get_script_folder, lift, get_channels_file_path, get_symmetry_letter,
    result_bind.
  by rewrite !bool_decide_eq_false_2.
Qed.

(** X17: [interpolate_barrier_positions_JK] raises the exception of
    [get_symmetry_letter] before it has opened any file exactly when the
    symmetry code is neither 0 nor 1. *)
Theorem interpolate_barrier_positions_JK_wrong_symmetry env molecule J K symmetry :
  interpolate_barrier_positions_JK molecule J K symmetry env = ([], Err WrongSymmetryCode)
  ↔ symmetry ≠ 0 ∧ symmetry ≠ 1.
Proof.
  split.
  - intros Herr.
    destruct (interpolate_barrier_positions_JK_err env molecule J K symmetry WrongSymmetryCode)
      as [(_ & H0 & H1) | [[=] | [[=] | [=]]]]; [by rewrite Herr | done].
  - intros [H0 H1].
    destruct (select_interpolating_Js_shape J) as (J_low & HJs & HJ_low).
    destruct (select_interpolating_Ks_shape J_low K HJ_low) as (K_low & HKs).
    rewrite (interpolate_barrier_positions_JK_eval _ _ _ _ _ _ _ _ _ HJs HKs).
    by rewrite load_known_barrier_positions_wrong_symmetry.
Qed.


Lemma polynomial_fit_2_err xs ys e :
  polynomial_fit_2 xs ys = Err e → e = TypeError ∨ e = ValueError ∨ e = OutsideModel.
Proof.
  unfold polynomial_fit_2.
  repeat (case_match; try case_bool_decide); intros [= <-]; auto.
Qed.

Lemma interpolate_energies_2d_err grid energies e :
  interpolate_energies_2d grid energies = Err e →
  e = TypeError ∨ e = ValueError ∨ e = OutsideModel ∨ e = IndexError.
Proof.
  unfold interpolate_energies_2d.
  intros [Hfit | (coefs & _ & Hrest)]%result_bind_err.
  - apply polynomial_fit_2_err in Hfit. tauto.
  - revert Hrest.
    repeat (intros [?%py_get_error | (? & _ & Herr)]%result_bind_err; [auto | revert Herr]).
    case_bool_decide; intros [= <-]; auto.
Qed.

Lemma find_barrier_err root_path J K sym grid env e :
  (find_barrier root_path J K sym grid env).2 = Err e →
  e = TypeError ∨ e = ValueError ∨ e = OutsideModel ∨ e = IndexError.
Proof.
  unfold find_barrier.
  intros [[=] | (found & Hfound & Hbody)]%io_bind_err.
  destruct found; [| discriminate].
  apply io_bind_err in Hbody as [Hload | (energies & Hload & Hbody)].
  - revert Hfound Hload. unfold path_exists, loadtxt. cbn.
    destruct (files env !! _) as [[column|channel_lines]|].
    + discriminate.
    + intros _ [= <-]. auto.
    + discriminate.
  - apply io_bind_err in Hbody as [Hpeak%lift_err | (p & _ & Hbody)];
      [apply py_get_error in Hpeak; auto |].
    apply io_bind_err in Hbody as [Hfit%lift_err | (barrier & _ & [=])].
    by eapply interpolate_energies_2d_err.
Qed.


Lemma get_pathway_index_err pathway_letter e :
  get_pathway_index pathway_letter = Err e → e = UnknownPathway.
Proof. unfold get_pathway_index. repeat case_bool_decide; by intros [= <-]. Qed.

Lemma main_cell_err run grid J J_ind barriers K_ind env e :
  (main_cell run grid J J_ind barriers K_ind env).2 = Err e →
  e = FileNotFoundError ∨ e = OutsideModel ∨ e = IndexError
  ∨ e = TypeError ∨ e = ValueError
  ∨ (e = WrongSymmetryCode ∧ molecule run ≠ "666" ∧ sym run ≠ 0 ∧ sym run ≠ 1)
  ∨ (e = UnknownPathway ∧ molecule run ≠ "666"
     ∧ get_pathway_index (pathway run) = Err UnknownPathway).
Proof.
  unfold main_cell.
  intros [HK%lift_err%py_get_error | (K & _ & Hbody)]%io_bind_err; [auto |].
  revert Hbody. case_bool_decide; [discriminate |].
  case_bool_decide as Hmolecule.
  - intros [Hfind | (barrier & _ & [=])]%io_bind_err.
    apply find_barrier_err in Hfind as [-> | [-> | [-> | ->]]]; auto 10.
  - intros [Hinterp | (barrier_positions & _ & Hbody)]%io_bind_err.
    + apply interpolate_barrier_positions_JK_err in Hinterp
        as [(-> & H0 & H1) | [-> | [-> | ->]]]; auto.
      do 5 right. left. split; [done |]. split; [done |].
      revert H0 H1. case_bool_decide; lia.
    + apply io_bind_err in Hbody as [Hpathway%lift_err | (pathway_index & _ & Hbody)].
      * pose proof (get_pathway_index_err _ _ Hpathway) as ->. auto 10.
      * apply io_bind_err in Hbody as [Hget%lift_err%py_get_error | (barrier & _ & [=])].
        auto.
Qed.

(** The exceptions of [main_with] in the embedding. *)
Lemma main_with_err run env e :
  (main_with run env).2 = Err e →
  e = FileNotFoundError ∨ e = OutsideModel ∨ e = IndexError
  ∨ e = TypeError ∨ e = ValueError
  ∨ (e = WrongSymmetryCode ∧ molecule run ≠ "666" ∧ sym run ≠ 0 ∧ sym run ≠ 1)
  ∨ (e = UnknownPathway ∧ molecule run ≠ "666"
     ∧ get_pathway_index (pathway run) = Err UnknownPathway).
Proof.
  unfold main_with.
  intros [Hgrid | (grid & _ & Hloop)]%io_bind_err.
  - revert Hgrid. unfold load_grid.
    intros [Hload | (grid & _ & [=])]%io_bind_err. revert Hload. unfold loadtxt. cbn.
    destruct (files env !! _) as [[column|channel_lines]|]; intros [= <-]; auto.
  - apply io_foldl_err in Hloop as (barriers & J_ind & _ & Hcolumn).
    revert Hcolumn. unfold main_column.
    intros [HJ%lift_err%py_get_error | (J & _ & Hcells)]%io_bind_err; [auto |].
    apply io_foldl_err in Hcells as (barriers' & K_ind & _ & Hcell).
    by eapply main_cell_err.
Qed.

(** X18: three exceptions of [main], for every run and environment.
    [main] never raises [ZeroDivisionError]; it raises the exception of
    [get_symmetry_letter] only for a molecule other than 666 and a symmetry
    that is neither 0 nor 1; it raises the exception of
    [get_pathway_index] only for a molecule other than 666 and a pathway
    that is not B, A or S. *)
Theorem main_with_exceptions run env e :
  (main_with run env).2 = Err e →
  e ≠ ZeroDivisionError
  ∧ (e = WrongSymmetryCode → molecule run ≠ "666" ∧ sym run ≠ 0 ∧ sym run ≠ 1)
  ∧ (e = UnknownPathway →
     molecule run ≠ "666" ∧ get_pathway_index (pathway run) = Err UnknownPathway).
Proof.
  intros Hraised. apply main_with_err in Hraised.
  split; [| split].
  - intros ->. decompose [or and] Hraised; discriminate.
  - intros ->. decompose [or and] Hraised; try discriminate. done.
  - intros ->. decompose [or and] Hraised; try discriminate. done.
Qed.

Lemma main_with_exceptions_witness :
  let run := Parameters ["root"] "868" 2 "S" [0] [0] in
  let env := Environment ["."] {[ ["root"; "rho_info.txt"] := Table [] ]} in
  (main_with run env).2 = Err WrongSymmetryCode
  ∧ WrongSymmetryCode ≠ ZeroDivisionError
  ∧ molecule run ≠ "666" ∧ sym run ≠ 0 ∧ sym run ≠ 1.
Proof.
  intros run env.
  assert ((main_with run env).2 = Err WrongSymmetryCode) as Hraised by by_evaluation.
  split; [exact Hraised |].
  destruct (main_with_exceptions run env WrongSymmetryCode Hraised) as (Hzero & Hsym & _).
  split; [exact Hzero |]. exact (Hsym eq_refl).
Defined.

End raised.

(** ** The output matrix *)

Section output_matrix.

Lemma set_cell_shape run barriers K_ind J_ind v :
  matrix_shape run barriers → matrix_shape run (set_cell barriers K_ind J_ind v).
Proof.
  intros [Hrows Hcolumns]. unfold set_cell. split.
  - by rewrite length_alter.
  - apply Forall_alter; [exact Hcolumns |]. intros row _ Hrow. by rewrite length_insert.
Qed.

Lemma get_cell_set_cell_eq run barriers K_ind J_ind v :
  matrix_shape run barriers →
  (K_ind < length (Ks run))%nat → (J_ind < length (Js run))%nat →
  get_cell (set_cell barriers K_ind J_ind v) K_ind J_ind = Some v.
Proof.
  intros [Hrows Hcolumns] HK HJ. unfold get_cell, set_cell.
  rewrite list_lookup_alter_eq.
  destruct (lookup_lt_is_Some_2 barriers K_ind) as [row Hrow]; [lia |].
  rewrite Hrow. cbn. apply list_lookup_insert_eq.
  rewrite Forall_lookup in Hcolumns. rewrite (Hcolumns _ _ Hrow). exact HJ.
Qed.

Lemma replicate_shape run :
  matrix_shape run (replicate (length (Ks run)) (replicate (length (Js run)) 0%Qc)).
Proof.
  split; [apply length_replicate |].
  apply Forall_replicate, length_replicate.
Qed.

(** An iteration that returns has either skipped its cell, K being above
    J, or written there the value computed for its J and K. *)
Lemma main_cell_outcome run grid J J_ind barriers K_ind env log barriers' :
  main_cell run grid J J_ind barriers K_ind env = (log, Ok barriers') →
  ∃ K, Ks run !! K_ind = Some K
    ∧ ((J < K ∧ barriers' = barriers)
       ∨ (K ≤ J ∧ ∃ v, barriers' = set_cell barriers K_ind J_ind v
          ∧ if bool_decide (molecule run = "666")
            then (find_barrier (root_path run) J K (sym run) grid env).2 = Ok v
            else ∃ barrier_positions pathway_index,
              (interpolate_barrier_positions_JK (molecule run) J K
                 (if bool_decide (K `mod` 2 = 0) then sym run else 1 - sym run) env).2
              = Ok barrier_positions
              ∧ get_pathway_index (pathway run) = Ok pathway_index
              ∧ barrier_positions !! pathway_index = Some v)).
Proof.
  unfold main_cell.
  destruct (py_get (Ks run) K_ind) as [K|e] eqn:HK;
    [| unfold mbind, io_bind, lift; intros [=]].
  assert (Ks run !! K_ind = Some K) as HK'.
  { unfold py_get in HK. destruct (Ks run !! K_ind); congruence. }
  clear HK. rewrite io_bind_lift_ok. intros Hcell. exists K. split; [exact HK' |].
  revert Hcell. case_bool_decide as Hlt; [intros [= _ <-]; by left |].
  intros Hcell. right. split; [lia |]. revert Hcell. case_bool_decide.
  - unfold mbind, io_bind.
    destruct (find_barrier _ _ _ _ _ env) as [log1 [v|e]]; cbn; [| intros [=]].
    intros Heq. inversion Heq; subst. by exists v.
  - unfold mbind, io_bind, lift.
    destruct (interpolate_barrier_positions_JK _ _ _ _ env) as [log1 [bps|e]];
      cbn -[py_get get_pathway_index]; [| intros [=]].
    destruct (get_pathway_index _) as [idx|e]; cbn -[py_get]; [| intros [=]].
    destruct (py_get bps idx) as [v|e] eqn:Hget; cbn; [| intros [=]].
    intros Heq. inversion Heq; subst. exists v. split; [reflexivity |].
    exists bps, idx. split; [reflexivity |]. split; [reflexivity |].
    unfold py_get in Hget. destruct (bps !! idx); congruence.
Qed.


(** A property of the elements handled so far, established by every
    iteration that returns, holds of the whole list after the loop. *)
Lemma io_foldl_indexed {A B} (P : list B → A → Prop) (f : A → B → io A) env :
  (∀ handled b a log a', P handled a → f a b env = (log, Ok a') → P (handled ++ [b]) a') →
  ∀ l handled a log a',
    P handled a → io_foldl f a l env = (log, Ok a') → P (handled ++ l) a'.
Proof.
  intros Hstep. induction l as [|b l IH]; intros handled a log a' Ha.
  - cbn. intros [= _ <-]. by rewrite app_nil_r.
  - cbn [io_foldl]. unfold mbind, io_bind.
    destruct (f a b env) as [log1 [a1|e]] eqn:Hf; [| discriminate].
    destruct (io_foldl f a1 l env) as [log2 r] eqn:Hfold.
    intros [= _ ->]. rewrite (assoc_L (++) handled [b] l : handled ++ b :: l = _).
    eapply IH; [| exact Hfold]. by eapply Hstep.
Qed.

Section cells.

Context (run : parameters) (grid : list Qc) (env : environment).

Lemma physical_cell_computed_ext barriers barriers' K_ind J_ind :
  get_cell barriers' K_ind J_ind = get_cell barriers K_ind J_ind →
  physical_cell_computed run grid env barriers K_ind J_ind →
  physical_cell_computed run grid env barriers' K_ind J_ind.
Proof. intros Heq Hcell K J HK HJ Hle. rewrite Heq. by apply Hcell. Qed.

Lemma main_cell_computes J J_ind barriers K_ind log barriers' :
  Js run !! J_ind = Some J →
  matrix_shape run barriers →
  main_cell run grid J J_ind barriers K_ind env = (log, Ok barriers') →
  matrix_shape run barriers'
  ∧ physical_cell_computed run grid env barriers' K_ind J_ind
  ∧ ∀ K_ind' J_ind', physical_cell_computed run grid env barriers K_ind' J_ind' →
                     physical_cell_computed run grid env barriers' K_ind' J_ind'.
Proof.
  intros HJ Hshape (K & HK & [[Hlt ->] | (Hle & v & -> & Hv)])%main_cell_outcome.
  - split; [exact Hshape |]. split; [| done].
    intros K' J' HK' HJ' Hle. rewrite HK in HK'. rewrite HJ in HJ'.
    injection HK' as <-. injection HJ' as <-. lia.
  - assert (physical_cell_computed run grid env (set_cell barriers K_ind J_ind v)
              K_ind J_ind) as Hnew.
    { intros K' J' HK' HJ' _. rewrite HK in HK'. rewrite HJ in HJ'.
      injection HK' as <-. injection HJ' as <-. exists v. split; [| exact Hv].
      apply (get_cell_set_cell_eq run); [exact Hshape | |]; by eapply lookup_lt_Some. }
    split; [by apply set_cell_shape |]. split; [exact Hnew |].
    intros K_ind' J_ind' Hold.
    destruct (decide ((K_ind', J_ind') = (K_ind, J_ind))) as [[= -> ->]|Hne]; [exact Hnew |].
    eapply physical_cell_computed_ext; [| exact Hold]. by apply get_cell_set_cell_ne.
Qed.

Lemma main_column_computes barriers J_ind log barriers' :
  matrix_shape run barriers →
  main_column run grid barriers J_ind env = (log, Ok barriers') →
  matrix_shape run barriers'
  ∧ (∀ K_ind, physical_cell_computed run grid env barriers' K_ind J_ind)
  ∧ ∀ K_ind' J_ind', physical_cell_computed run grid env barriers K_ind' J_ind' →
                     physical_cell_computed run grid env barriers' K_ind' J_ind'.
Proof.
  intros Hshape. unfold main_column, py_get.
  destruct (Js run !! J_ind) as [J|] eqn:HJ; [| intros [=]].
  rewrite io_bind_lift_ok. intros Hfold.
  apply (io_foldl_indexed
           (λ handled b,
              matrix_shape run b
              ∧ (∀ K_ind, K_ind ∈ handled → physical_cell_computed run grid env b K_ind J_ind)
              ∧ ∀ K_ind' J_ind', physical_cell_computed run grid env barriers K_ind' J_ind' →
                                 physical_cell_computed run grid env b K_ind' J_ind')
           _ _) with (handled := []) in Hfold.
  - destruct Hfold as (Hshape' & Hcolumn & Hold). split; [exact Hshape' |].
    split; [| exact Hold]. intros K_ind.
    destruct (decide (K_ind < length (Ks run))%nat) as [Hin|Hout].
    + apply Hcolumn. cbn. apply elem_of_seq. lia.
    + intros K' J' HK. apply lookup_lt_Some in HK. lia.
  - intros handled K_ind a log1 a' (Ha & Hcolumn & Hold) Hcell.
    destruct (main_cell_computes _ _ _ _ _ _ HJ Ha Hcell) as (Ha' & Hnew & Hkeep).
    split; [exact Ha' |]. split.
    + intros K_ind' [Hin | ->%list_elem_of_singleton]%elem_of_app; [| exact Hnew].
      by apply Hkeep, Hcolumn.
    + intros K_ind' J_ind' Hcell'. by apply Hkeep, Hold.
  - split; [exact Hshape |]. split; [| done]. intros K_ind []%elem_of_nil.
Qed.

End cells.

(** The matrix [main] returns has its shape and holds, in every cell with
    K ≤ J, the value computed for this cell from the grid it has loaded. *)
Lemma main_with_computes run env log barriers :
  main_with run env = (log, Ok barriers) →
  ∃ grid, files env !! (root_path run ++ ["rho_info.txt"]) = Some (Table grid)
    ∧ matrix_shape run barriers
    ∧ ∀ K_ind J_ind, physical_cell_computed run grid env barriers K_ind J_ind.
Proof.
  unfold main_with, load_grid, loadtxt, mbind at 2, io_bind at 2, mbind, io_bind.
  destruct (files env !! (root_path run ++ ["rho_info.txt"])) as [[grid|channel_lines]|];
    [| intros [=] | intros [=]].
  cbn [mret io_ret].
  destruct (io_foldl _ _ _ env) as [log2 r] eqn:Hfold. intros [= _ ->].
  exists grid. split; [reflexivity |].
  apply (io_foldl_indexed
           (λ handled b,
              matrix_shape run b
              ∧ ∀ K_ind J_ind, J_ind ∈ handled →
                               physical_cell_computed run grid env b K_ind J_ind)
           _ _) with (handled := []) in Hfold.
  - destruct Hfold as [Hshape Hcells]. split; [exact Hshape |]. intros K_ind J_ind.
    destruct (decide (J_ind < length (Js run))%nat) as [Hin|Hout].
    + apply Hcells. cbn. apply elem_of_seq. lia.
    + intros K J _ HJ. apply lookup_lt_Some in HJ. lia.
  - intros handled J_ind a log1 a' [Ha Hcells] Hcolumn.
    destruct (main_column_computes _ _ _ _ _ _ _ Ha Hcolumn) as (Ha' & Hnew & Hkeep).
    split; [exact Ha' |].
    intros K_ind J_ind' [Hin | ->%list_elem_of_singleton]%elem_of_app; [| apply Hnew].
    by apply Hkeep, Hcells.
  - split; [apply replicate_shape |]. intros K_ind J_ind []%elem_of_nil.
Qed.

(** X19: the matrix [main] returns has one row for every K and one column
    for every J. *)
Theorem main_with_shape run env log barriers :
  main_with run env = (log, Ok barriers) →
  length barriers = length (Ks run)
  ∧ Forall (λ row, length row = length (Js run)) barriers.
Proof. by intros (grid & _ & Hshape & _)%main_with_computes. Qed.

(** X20: for molecule 666, every cell of the returned matrix with K ≤ J
    holds the barrier [find_barrier] finds for the J and the K of this
    cell, with the grid loaded from rho_info.txt. *)
Theorem main_with_direct_cells run env grid log barriers K_ind J_ind K J :
  molecule run = "666" →
  files env !! (root_path run ++ ["rho_info.txt"]) = Some (Table grid) →
  main_with run env = (log, Ok barriers) →
  Ks run !! K_ind = Some K → Js run !! J_ind = Some J → K ≤ J →
  ∃ barrier, (find_barrier (root_path run) J K (sym run) grid env).2 = Ok barrier
    ∧ get_cell barriers K_ind J_ind = Some barrier.
Proof.
  intros Hmolecule Hgrid (grid' & Hgrid' & _ & Hcells)%main_with_computes HK HJ Hle.
  rewrite Hgrid in Hgrid'. injection Hgrid' as <-.
  destruct (Hcells K_ind J_ind K J HK HJ Hle) as (v & Hcell & Hv).
  rewrite bool_decide_eq_true_2 in Hv by done. by exists v.
Qed.

(** X21: for another molecule, every cell of the returned matrix with
    K ≤ J holds the position of the chosen pathway among the positions
    interpolated for the J and the K of this cell, the symmetry being
    [sym] for even K and [1 - sym] for odd K. *)
Theorem main_with_interpolated_cells run env log barriers K_ind J_ind K J :
  molecule run ≠ "666" →
  main_with run env = (log, Ok barriers) →
  Ks run !! K_ind = Some K → Js run !! J_ind = Some J → K ≤ J →
  ∃ barrier_positions pathway_index barrier,
    (interpolate_barrier_positions_JK (molecule run) J K
       (if bool_decide (K `mod` 2 = 0) then sym run else 1 - sym run) env).2
    = Ok barrier_positions
    ∧ get_pathway_index (pathway run) = Ok pathway_index
    ∧ barrier_positions !! pathway_index = Some barrier
    ∧ get_cell barriers K_ind J_ind = Some barrier.
Proof.
  intros Hmolecule (grid & _ & _ & Hcells)%main_with_computes HK HJ Hle.
  destruct (Hcells K_ind J_ind K J HK HJ Hle) as (v & Hcell & Hv).
  rewrite bool_decide_eq_false_2 in Hv by done.
  destruct Hv as (barrier_positions & pathway_index & Hinterp & Hpathway & Hv).
  by exists barrier_positions, pathway_index, v.
Qed.



Lemma set_cell_replicate (rows columns K_ind J_ind : nat) (v : Qc) :
  set_cell (replicate rows (replicate columns v)) K_ind J_ind v
  = replicate rows (replicate columns v).
Proof.
  unfold set_cell. apply list_eq. intros i.
  destruct (decide (i = K_ind)) as [->|Hne].
  - rewrite list_lookup_alter_eq.
    destruct (decide (K_ind < rows)%nat) as [Hin|Hout].
    + rewrite lookup_replicate_2 by done. cbn. by rewrite insert_replicate.
    + assert (replicate rows (replicate columns v) !! K_ind = None) as ->
        by (apply lookup_replicate_None; lia).
      reflexivity.
  - by rewrite list_lookup_alter_ne.
Qed.

Lemma io_foldl_fixed {A B} (f : A → B → io A) (a : A) (l : list B) env :
  (∀ b, b ∈ l → f a b env = ([], Ok a)) → io_foldl f a l env = ([], Ok a).
Proof.
  induction l as [|b l IH]; intros Hf; [reflexivity |].
  cbn [io_foldl]. unfold mbind, io_bind. rewrite Hf by left.
  rewrite IH; [reflexivity |]. intros b' Hin. apply Hf. by right.
Qed.

Lemma find_barrier_absent root_path J K sym grid env :
  files env !! energies_path_of root_path J K sym = None →
  find_barrier root_path J K sym grid env = ([], Ok 0%Qc).
Proof.
  intros Hnone. unfold find_barrier, path_exists, mbind, io_bind. rewrite Hnone.
  rewrite bool_decide_eq_false_2; [reflexivity |]. by intros [? [=]].
Qed.

(** X22: for molecule 666, when the grid loads and no energies file
    exists, [main] returns the matrix of zeros and has opened the grid
    file only. *)
Theorem main_with_no_energies run env grid :
  molecule run = "666" →
  files env !! (root_path run ++ ["rho_info.txt"]) = Some (Table grid) →
  (∀ J K, files env !! energies_path_of (root_path run) J K (sym run) = None) →
  main_with run env
  = ([root_path run ++ ["rho_info.txt"]],
     Ok (replicate (length (Ks run)) (replicate (length (Js run)) 0%Qc))).
Proof.
  intros Hmolecule Hgrid Hnone.
  unfold main_with, load_grid, loadtxt, mbind at 2, io_bind at 2, mbind, io_bind.
  rewrite Hgrid. cbn [mret io_ret].
  rewrite io_foldl_fixed; [reflexivity |].
  intros J_ind [_ HJ_ind]%elem_of_seq. unfold main_column, py_get.
  destruct (lookup_lt_is_Some_2 (Js run) J_ind) as [J HJ]; [lia |].
  rewrite HJ, io_bind_lift_ok. apply io_foldl_fixed.
  intros K_ind [_ HK_ind]%elem_of_seq. unfold main_cell, py_get.
  destruct (lookup_lt_is_Some_2 (Ks run) K_ind) as [K HK]; [lia |].
  rewrite HK, io_bind_lift_ok. case_bool_decide; [reflexivity |].
  rewrite bool_decide_eq_true_2 by done.
  unfold mbind, io_bind. rewrite find_barrier_absent by done.
  cbn [mret io_ret]. by rewrite set_cell_replicate.
Qed.

(** Loops with bodies that agree in this environment agree. *)
Lemma io_foldl_ext {A B} (f g : A → B → io A) (l : list B) env :
  (∀ a b, f a b env = g a b env) → ∀ a, io_foldl f a l env = io_foldl g a l env.
Proof.
  intros Hfg. induction l as [|b l IH]; intros a; [reflexivity |].
  cbn [io_foldl]. unfold mbind, io_bind. rewrite Hfg.
  destruct (g a b env) as [log [a'|e]]; [| reflexivity]. by rewrite IH.
Qed.

(** X23: for a molecule other than 666 the grid file is opened first and
    its values are not used: the outcome of [main] is that of its loops run
    on an empty grid. *)
Theorem main_with_grid_unused run env grid :
  molecule run ≠ "666" →
  files env !! (root_path run ++ ["rho_info.txt"]) = Some (Table grid) →
  main_with run env
  = ((root_path run ++ ["rho_info.txt"])
       :: (io_foldl (main_column run [])
             (replicate (length (Ks run)) (replicate (length (Js run)) 0%Qc))
             (seq 0 (length (Js run))) env).1,
     (io_foldl (main_column run [])
        (replicate (length (Ks run)) (replicate (length (Js run)) 0%Qc))
        (seq 0 (length (Js run))) env).2).
Proof.
  intros Hmolecule Hgrid.
  unfold main_with, load_grid, loadtxt, mbind at 2, io_bind at 2, mbind, io_bind.
  rewrite Hgrid. cbn [mret io_ret].
  rewrite (io_foldl_ext (main_column run grid) (main_column run [])).
  - by destruct (io_foldl _ _ _ env) as [log [barriers|e]].
  - intros barriers J_ind. unfold main_column, mbind, io_bind.
    destruct (lift (py_get (Js run) J_ind) env) as [log [J|e]]; [| reflexivity].
    rewrite (io_foldl_ext (main_cell run grid J J_ind) (main_cell run [] J J_ind));
      [reflexivity |].
    intros barriers' K_ind. unfold main_cell.
    by rewrite (bool_decide_eq_false_2 (molecule run = "666")).
Qed.

Lemma main_with_shape_witness :
  let run := Parameters ["root"] "666" 0 "S" [0; 2] [0; 2] in
  let env := Environment ["."] (list_to_map [
    (["root"; "rho_info.txt"], Table (of_int <$> [1; 2; 3; 4; 5]));
    (["root"; "J_2"; "K_0"; "symmetry_0"; "basis"; "energies_2d.fwc"],
     Table (of_int <$> [0; 1; 5; 1; 0]))]) in
  let log := [["root"; "rho_info.txt"];
              ["root"; "J_2"; "K_0"; "symmetry_0"; "basis"; "energies_2d.fwc"]] in
  let barriers := [[of_int 0; of_int 3]; [of_int 0; of_int 0]] in
  main_with run env = (log, Ok barriers)
  ∧ length barriers = length (Ks run)
  ∧ Forall (λ row, length row = length (Js run)) barriers.
Proof.
  intros run env log barriers.
  assert (main_with run env = (log, Ok barriers)) as Hmain by by_evaluation.
  split; [exact Hmain |].
  exact (main_with_shape run env log barriers Hmain).
Defined.

Lemma main_with_direct_cells_witness :
  let run := Parameters ["root"] "666" 0 "S" [0; 2] [0; 2] in
  let grid := of_int <$> [1; 2; 3; 4; 5] in
  let env := Environment ["."] (list_to_map [
    (["root"; "rho_info.txt"], Table grid);
    (["root"; "J_2"; "K_0"; "symmetry_0"; "basis"; "energies_2d.fwc"],
     Table (of_int <$> [0; 1; 5; 1; 0]))]) in
  let log := [["root"; "rho_info.txt"];
              ["root"; "J_2"; "K_0"; "symmetry_0"; "basis"; "energies_2d.fwc"]] in
  let barriers := [[of_int 0; of_int 3]; [of_int 0; of_int 0]] in
  molecule run = "666"
  ∧ files env !! (root_path run ++ ["rho_info.txt"]) = Some (Table grid)
  ∧ main_with run env = (log, Ok barriers)
  ∧ Ks run !! 0%nat = Some 0
  ∧ Js run !! 1%nat = Some 2
  ∧ 0 ≤ 2
  ∧ ∃ barrier, (find_barrier (root_path run) 2 0 (sym run) grid env).2 = Ok barrier
      ∧ get_cell barriers 0 1 = Some barrier.
Proof.
  intros run grid env log barriers.
  assert (molecule run = "666") as Hmolecule by reflexivity.
  assert (files env !! (root_path run ++ ["rho_info.txt"]) = Some (Table grid)) as Hgrid
    by reflexivity.
  assert (main_with run env = (log, Ok barriers)) as Hmain by by_evaluation.
  assert (Ks run !! 0%nat = Some 0) as HK by reflexivity.
  assert (Js run !! 1%nat = Some 2) as HJ by reflexivity.
  assert (0 ≤ 2) as Hle by lia.
  repeat (split; [assumption |]).
  exact (main_with_direct_cells run env grid log barriers 0 1 0 2
           Hmolecule Hgrid Hmain HK HJ Hle).
Defined.

Lemma main_with_interpolated_cells_witness :
  let run := Parameters ["root"] "868" 0 "S" [6] [1] in
  let record c := Channels (zip_with ChannelLine [1; 2; 3] (of_int <$> c)) in
  let p00 := ["."; "script_data"; "868_full"; "J04"; "K00A"; "channels.dat"] in
  let p01 := ["."; "script_data"; "868_full"; "J04"; "K02A"; "channels.dat"] in
  let p10 := ["."; "script_data"; "868_full"; "J08"; "K00A"; "channels.dat"] in
  let p11 := ["."; "script_data"; "868_full"; "J08"; "K02A"; "channels.dat"] in
  let env := Environment ["."] (list_to_map [
    (["root"; "rho_info.txt"], Table []);
    (p00, record [3; 4; 5]); (p01, record [5; 6; 7]);
    (p10, record [7; 8; 9]); (p11, record [1; 1; 1])]) in
  let log := [["root"; "rho_info.txt"]; p00; p01; p10; p11] in
  let barriers := [[of_int 8]] in
  molecule run ≠ "666"
  ∧ main_with run env = (log, Ok barriers)
  ∧ Ks run !! 0%nat = Some 1
  ∧ Js run !! 0%nat = Some 6
  ∧ 1 ≤ 6
  ∧ ∃ barrier_positions pathway_index barrier,
      (interpolate_barrier_positions_JK (molecule run) 6 1
         (if bool_decide (1 `mod` 2 = 0) then sym run else 1 - sym run) env).2
      = Ok barrier_positions
      ∧ get_pathway_index (pathway run) = Ok pathway_index
      ∧ barrier_positions !! pathway_index = Some barrier
      ∧ get_cell barriers 0 0 = Some barrier.
Proof.
  intros run record p00 p01 p10 p11 env log barriers.
  assert (molecule run ≠ "666") as Hmolecule by discriminate.
  assert (main_with run env = (log, Ok barriers)) as Hmain by by_evaluation.
  assert (Ks run !! 0%nat = Some 1) as HK by reflexivity.
  assert (Js run !! 0%nat = Some 6) as HJ by reflexivity.
  assert (1 ≤ 6) as Hle by lia.
  repeat (split; [assumption |]).
  exact (main_with_interpolated_cells run env log barriers 0 0 1 6 Hmolecule Hmain HK HJ Hle).
Defined.

Lemma main_with_no_energies_witness :
  let run := Parameters ["root"] "666" 0 "S" [0; 2] [0; 2] in
  let grid := of_int <$> [1; 2; 3] in
  let env := Environment ["."] {[ ["root"; "rho_info.txt"] := Table grid ]} in
  molecule run = "666"
  ∧ files env !! (root_path run ++ ["rho_info.txt"]) = Some (Table grid)
  ∧ (∀ J K, files env !! energies_path_of (root_path run) J K (sym run) = None)
  ∧ main_with run env = ([["root"; "rho_info.txt"]], Ok [[0%Qc; 0%Qc]; [0%Qc; 0%Qc]]).
Proof.
  intros run grid env.
  assert (molecule run = "666") as Hmolecule by reflexivity.
  assert (files env !! (root_path run ++ ["rho_info.txt"]) = Some (Table grid)) as Hgrid
    by reflexivity.
  assert (∀ J K, files env !! energies_path_of (root_path run) J K (sym run) = None)
    as Hnone by (intros J K; apply lookup_singleton_ne; discriminate).
  repeat (split; [assumption |]).
  exact (main_with_no_energies run env grid Hmolecule Hgrid Hnone).
Defined.

Lemma main_with_grid_unused_witness :
  let run := Parameters ["root"] "868" 2 "S" [0] [0] in
  let grid := of_int <$> [1; 2; 3] in
  let env := Environment ["."] {[ ["root"; "rho_info.txt"] := Table grid ]} in
  molecule run ≠ "666"
  ∧ files env !! (root_path run ++ ["rho_info.txt"]) = Some (Table grid)
  ∧ main_with run env
    = ((root_path run ++ ["rho_info.txt"])
         :: (io_foldl (main_column run [])
               (replicate (length (Ks run)) (replicate (length (Js run)) 0%Qc))
               (seq 0 (length (Js run))) env).1,
       (io_foldl (main_column run [])
          (replicate (length (Ks run)) (replicate (length (Js run)) 0%Qc))
          (seq 0 (length (Js run))) env).2).
Proof.
  intros run grid env.
  assert (molecule run ≠ "666") as Hmolecule by discriminate.
  assert (files env !! (root_path run ++ ["rho_info.txt"]) = Some (Table grid)) as Hgrid
    by reflexivity.
  repeat (split; [assumption |]).
  exact (main_with_grid_unused run env grid Hmolecule Hgrid).
Defined.

End output_matrix.

(** ** Peaks and barriers *)

Section maxima.

Implicit Types (x : list Qc) (i i_max i_ahead gap fuel p : nat).

(** The plateau scan passes only over samples equal to the one it started from. *)
Lemma plateau_end_flat gap x i_max xi i_ahead j :
  (i_ahead ≤ j < plateau_end gap x i_max xi i_ahead)%nat → at_index x j = xi.
Proof.
  revert i_ahead. induction gap as [|gap IH]; intros i_ahead; simpl; [lia |].
  destruct (bool_decide (i_ahead < i_max)%nat); simpl; [| lia].
  case_bool_decide as Heq; [| lia].
  intros Hj. destruct (decide (j = i_ahead)) as [->|Hne]; [exact Heq |].
  apply (IH (S i_ahead)). lia.
Qed.

(** Every index the loop reports is a local maximum: no neighbour is
    higher, and the curve is strictly lower somewhere before it and
    somewhere after it. *)
Lemma local_maxima_loop_peak fuel x i_max i :
  (1 ≤ i)%nat →
  Forall (λ p, (at_index x (p - 1) ≤ at_index x p)%Qc
               ∧ (at_index x (p + 1) ≤ at_index x p)%Qc
               ∧ ∃ a b, (a < p < b ∧ b ≤ i_max)%nat
                        ∧ (at_index x a < at_index x p)%Qc
                        ∧ (at_index x b < at_index x p)%Qc)
         (local_maxima_loop fuel x i_max i).
Proof.
  revert i. induction fuel as [|fuel IH]; intros i Hi; cbn [local_maxima_loop]; [constructor |].
  cbv zeta. case_bool_decide as Hlt; [| constructor].
  case_bool_decide as Hrise; [| apply IH; lia].
  pose proof (plateau_end_bounds (i_max - (i + 1)) x i_max (at_index x i) (i + 1)
                ltac:(lia)) as Hahead.
  pose proof (plateau_end_flat (i_max - (i + 1)) x i_max (at_index x i) (i + 1)) as Hflat.
  set (i_ahead := plateau_end _ _ _ _ _) in *.
  case_bool_decide as Hfall; [| apply IH; lia].
  constructor; [| apply IH; lia].
  set (p := ((i + (i_ahead - 1)) / 2)%nat).
  assert (i ≤ p ≤ i_ahead - 1)%nat as Hp.
  { split; [apply Nat.div_le_lower_bound; lia |].
    apply Nat.lt_succ_r, Nat.Div0.div_lt_upper_bound. lia. }
  assert (∀ j, (i ≤ j < i_ahead)%nat → at_index x j = at_index x i) as Hplateau.
  { intros j Hj. destruct (decide (j = i)) as [->|Hne]; [reflexivity |].
    apply Hflat. lia. }
  rewrite (Hplateau p) by lia.
  split; [| split].
  - destruct (decide (p = i)) as [->|Hne]; [by apply Qclt_le_weak |].
    rewrite (Hplateau (p - 1)%nat) by lia. apply Qcle_refl.
  - destruct (decide (p + 1 = i_ahead)%nat) as [->|Hne]; [by apply Qclt_le_weak |].
    rewrite (Hplateau (p + 1)%nat) by lia. apply Qcle_refl.
  - exists (i - 1)%nat, i_ahead. split; [lia |]. by split.
Qed.

(** The peaks reported lie in the band, have both neighbours and are
    local maxima. *)
Lemma find_peaks_peak x hmin hmax p :
  p ∈ find_peaks x hmin hmax →
  (1 ≤ p ∧ p + 2 ≤ length x)%nat
  ∧ (hmin ≤ at_index x p ∧ at_index x p ≤ hmax)%Qc
  ∧ (at_index x (p - 1) ≤ at_index x p)%Qc
  ∧ (at_index x (p + 1) ≤ at_index x p)%Qc
  ∧ ∃ a b, (a < p < b ∧ b < length x)%nat
           ∧ (at_index x a < at_index x p)%Qc
           ∧ (at_index x b < at_index x p)%Qc.
Proof.
  unfold find_peaks. intros [Hband Hp]%list_elem_of_filter.
  pose proof (local_maxima_1d_bounds x) as Hbounds.
  rewrite Forall_forall in Hbounds. specialize (Hbounds _ Hp).
  split; [exact Hbounds |]. split; [exact Hband |].
  unfold local_maxima_1d in Hp.
  pose proof (local_maxima_loop_peak (length x - 1 - 1) x (length x - 1) 1 ltac:(lia)) as Hpeak.
  rewrite Forall_forall in Hpeak.
  destruct (Hpeak _ Hp) as (Hleft & Hright & a & b & Hab & Ha & Hb).
  split; [exact Hleft |]. split; [exact Hright |].
  exists a, b. split; [lia |]. by split.
Qed.

(** In a sorted sequence, samples are ordered as their indices. *)
Lemma Sorted_at_index (R : relation Qc) `{!Transitive R} x a b :
  Sorted R x → (a < b < length x)%nat → R (at_index x a) (at_index x b).
Proof.
  intros Hsorted%Sorted_StronglySorted; [| done]. revert a b.
  induction Hsorted as [|y x Hsorted IH Hall]; intros a b Hab; [cbn in Hab; lia |].
  destruct b as [|b]; [lia |]. cbn in Hab.
  change (at_index (y :: x) (S b)) with (at_index x b).
  destruct a as [|a].
  - change (at_index (y :: x) 0) with y. rewrite Forall_lookup in Hall.
    destruct (lookup_lt_is_Some_2 x b) as [z Hz]; [lia |].
    unfold at_index. rewrite Hz. cbn. by eapply Hall.
  - change (at_index (y :: x) (S a)) with (at_index x a). apply IH. lia.
Qed.


(** A monotone curve, or a curve with no sample in the band, has no peak. *)
Lemma find_peaks_none x hmin hmax :
  Sorted Qcle x ∨ Sorted (flip Qcle) x
  ∨ Forall (λ y, y < hmin ∨ hmax < y)%Qc x →
  find_peaks x hmin hmax = [].
Proof.
  intros Hshape. destruct (find_peaks x hmin hmax) as [|p peaks] eqn:Hpeaks; [reflexivity |].
  assert (p ∈ find_peaks x hmin hmax) as Hp by (rewrite Hpeaks; left).
  apply find_peaks_peak in Hp
    as (Hbounds & [Hmin Hmax] & _ & _ & a & b & Hab & Ha & Hb).
  destruct Hshape as [Hup | [Hdown | Hband]].
  - pose proof (Sorted_at_index Qcle x p b Hup ltac:(lia)) as Hle.
    by apply Qcle_ngt in Hle.
  - pose proof (Sorted_at_index (flip Qcle) x a p Hdown ltac:(lia)) as Hle.
    by apply Qcle_ngt in Hle.
  - rewrite Forall_lookup in Hband.
    destruct (lookup_lt_is_Some_2 x p) as [y Hy]; [lia |].
    specialize (Hband _ _ Hy). unfold at_index in Hmin, Hmax. rewrite Hy in Hmin, Hmax.
    cbn in Hmin, Hmax. destruct Hband as [Hlow | Hhigh].
    + by apply Qcle_ngt in Hmin.
    + by apply Qcle_ngt in Hmax.
Qed.

(** X24: a curve without a barrier: when the energies file holds a
    non-decreasing curve, a non-increasing curve, or a curve with no sample
    between -5000 and 5000, peak detection reports nothing and
    [find_barrier] raises [IndexError] at [peaks[0]], having opened the
    energies file only.  The file holds at least two data rows: a single
    row is loaded by [np.loadtxt] as a 0-d array, which [find_peaks]
    rejects. *)
Theorem find_barrier_no_peak env root_path J K sym grid energies :
  files env !! energies_path_of root_path J K sym = Some (Table energies) →
  (2 ≤ length energies)%nat →
  Sorted Qcle energies ∨ Sorted (flip Qcle) energies
  ∨ Forall (λ y, y < of_int (-5000) ∨ of_int 5000 < y)%Qc energies →
  find_barrier root_path J K sym grid env
  = ([energies_path_of root_path J K sym], Err IndexError).
Proof.
  intros Hfile _ Hshape. rewrite (find_barrier_found _ _ _ _ _ _ _ Hfile).
  by rewrite find_peaks_none.
Qed.

(** The three elements of a window around a position. *)
Lemma py_slice_window (l : list Qc) p a b c :
  (1 ≤ p)%nat →
  py_slice l (Z.of_nat p - 1) (Z.of_nat p + 2) = [a; b; c] →
  (p + 1 < length l)%nat
  ∧ at_index l (p - 1) = a ∧ at_index l p = b ∧ at_index l (p + 1) = c.
Proof.
  intros Hp. unfold py_slice, py_slice_bound.
  rewrite !bool_decide_eq_false_2 by lia. intros Hslice.
  assert (∀ k v, [a; b; c] !! k = Some v → l !! (p - 1 + k)%nat = Some v) as Hlookup.
  { intros k v Hk. rewrite <- Hslice in Hk.
    apply lookup_take_Some in Hk as [Hk _]. rewrite lookup_drop in Hk.
    apply lookup_lt_Some in Hk as Hlt.
    replace (Z.to_nat (Z.min (Z.of_nat p - 1) (Z.of_nat (length l)))) with (p - 1)%nat
      in Hk by lia.
    exact Hk. }
  pose proof (Hlookup 0%nat a eq_refl) as Ha.
  pose proof (Hlookup 1%nat b eq_refl) as Hb.
  pose proof (Hlookup 2%nat c eq_refl) as Hc.
  apply lookup_lt_Some in Hc as Hlt.
  replace (p - 1 + 0)%nat with (p - 1)%nat in Ha by lia.
  replace (p - 1 + 1)%nat with p in Hb by lia.
  replace (p - 1 + 2)%nat with (p + 1)%nat in Hc by lia.
  unfold at_index. rewrite Ha, Hb, Hc. split; [lia | done].
Qed.

(** The loop reports every strict local maximum it has not passed. *)
Lemma local_maxima_loop_complete fuel x i_max i j :
  (1 ≤ j ≤ i ∧ i < i_max ∧ i_max - j ≤ fuel)%nat →
  (at_index x (i - 1) < at_index x i)%Qc → (at_index x (i + 1) < at_index x i)%Qc →
  i ∈ local_maxima_loop fuel x i_max j.
Proof.
  intros Hj Hrise Hfall. revert j Hj.
  induction fuel as [|fuel IH]; intros j Hj; [lia |].
  cbn [local_maxima_loop]. cbv zeta.
  rewrite (bool_decide_eq_true_2 (j < i_max)%nat) by lia.
  pose proof (plateau_end_bounds (i_max - (j + 1)) x i_max (at_index x j) (j + 1)
                ltac:(lia)) as Hahead.
  pose proof (plateau_end_flat (i_max - (j + 1)) x i_max (at_index x j) (j + 1)) as Hflat.
  destruct (decide (j = i)) as [->|Hne].
  - rewrite (bool_decide_eq_true_2 _ Hrise).
    assert (plateau_end (i_max - (i + 1)) x i_max (at_index x i) (i + 1) = (i + 1)%nat) as ->.
    { destruct (i_max - (i + 1))%nat as [|gap]; [reflexivity |]. cbn [plateau_end].
      rewrite (bool_decide_eq_false_2 (at_index x (i + 1) = at_index x i))
        by by apply Qclt_not_eq.
      by rewrite andb_false_r. }
    rewrite (bool_decide_eq_true_2 _ Hfall).
    replace ((i + (i + 1 - 1)) / 2)%nat with i; [left |].
    replace (i + (i + 1 - 1))%nat with (i * 2)%nat by lia. by rewrite Nat.div_mul.
  - case_bool_decide as Hrise'; [| apply IH; lia].
    set (i_ahead := plateau_end _ _ _ _ _) in *.
    assert (∀ k, (j ≤ k < i_ahead)%nat → at_index x k = at_index x j) as Hplateau.
    { intros k Hk. destruct (decide (k = j)) as [->|Hk']; [reflexivity |].
      apply Hflat. lia. }
    case_bool_decide as Hfall'; [| apply IH; lia].
    right. apply IH. split; [| lia]. split; [lia |].
    destruct (decide (i_ahead < i)%nat) as [Hlt|Hge]; [lia |]. exfalso.
    destruct (decide (i = i_ahead)) as [->|Hne'].
    + rewrite (Hplateau (i_ahead - 1)%nat) in Hrise by lia.
      by apply (Qclt_not_le _ _ Hrise), Qclt_le_weak.
    + rewrite (Hplateau i), (Hplateau (i - 1)%nat) in Hrise by lia.
      by apply Qclt_not_eq in Hrise.
Qed.

(** Every strict local maximum in the band is reported. *)
Lemma find_peaks_complete x hmin hmax i :
  (1 ≤ i ∧ i + 1 < length x)%nat →
  (at_index x (i - 1) < at_index x i)%Qc → (at_index x (i + 1) < at_index x i)%Qc →
  (hmin ≤ at_index x i)%Qc → (at_index x i ≤ hmax)%Qc →
  i ∈ find_peaks x hmin hmax.
Proof.
  intros Hi Hrise Hfall Hmin Hmax. unfold find_peaks, local_maxima_1d.
  apply list_elem_of_filter. split; [by split |].
  apply local_maxima_loop_complete; [lia | exact Hrise | exact Hfall].
Qed.

(** In a sequence whose neighbours are related, every sample is related
    to the next. *)
Lemma Sorted_adjacent (R : relation Qc) x k :
  Sorted R x → (k + 1 < length x)%nat → R (at_index x k) (at_index x (k + 1)).
Proof.
  intros Hsorted. revert k.
  induction Hsorted as [|y x Hsorted IH Hhd]; intros k Hk; [cbn in Hk; lia |].
  cbn in Hk. destruct k as [|k].
  - destruct Hhd as [|z x Hyz]; [cbn in Hk; lia |]. exact Hyz.
  - change (at_index (y :: x) (S k)) with (at_index x k).
    change (at_index (y :: x) (S k + 1)) with (at_index x (k + 1)). apply IH. lia.
Qed.

(** The fit through three samples with the middle one strictly highest
    has a vertex. *)
Lemma interpolate_energies_2d_returns (x0 x1 x2 y0 y1 y2 : Qc) :
  (x0 < x1)%Qc → (x1 < x2)%Qc → (y0 < y1)%Qc → (y2 < y1)%Qc →
  ∃ barrier, interpolate_energies_2d [x0; x1; x2] [y0; y1; y2] = Ok barrier.
Proof.
  intros H01 H12 Hleft Hright. unfold interpolate_energies_2d, polynomial_fit_2.
  assert (x0 < x2)%Qc as H02 by by etrans.
  rewrite bool_decide_eq_true_2
    by (split; [| split]; by apply Qclt_not_eq).
  cbn [mbind result_bind py_get lookup list_lookup]. cbv zeta.
  rewrite bool_decide_eq_false_2; [by eexists |].
  assert (0 < (y1 - y0) / (x1 - x0))%Qc as Hd01.
  { apply Qcmult_pos_pos; [by apply Qclt_minus_iff in Hleft |].
    apply Qcinv_pos. by apply Qclt_minus_iff in H01. }
  assert (0 < (y1 - y2) / (x2 - x1))%Qc as Hd12.
  { apply Qcmult_pos_pos; [by apply Qclt_minus_iff in Hright |].
    apply Qcinv_pos. by apply Qclt_minus_iff in H12. }
  assert (0 < / (x2 - x0))%Qc as HW by (apply Qcinv_pos; by apply Qclt_minus_iff in H02).
  pose proof (Qcmult_pos_pos _ _ (Qcplus_pos_pos _ _ Hd01 Hd12) HW) as Hpos.
  intros Hc. apply Qclt_not_eq in Hpos. apply Hpos.
  transitivity (- (((y2 - y1) / (x2 - x1) - (y1 - y0) / (x1 - x0)) / (x2 - x0)))%Qc.
  - rewrite Hc. ring.
  - unfold Qcdiv. ring.
Qed.

(** The window around a position that has both neighbours. *)
Lemma py_slice_window_eq (l : list Qc) p :
  (1 ≤ p ∧ p + 1 < length l)%nat →
  py_slice l (Z.of_nat p - 1) (Z.of_nat p + 2)
  = [at_index l (p - 1); at_index l p; at_index l (p + 1)].
Proof.
  intros Hp.
  pose proof (length_py_slice l (Z.of_nat p - 1) (Z.of_nat p + 2) ltac:(lia) ltac:(lia))
    as Hlen.
  destruct (py_slice l _ _) as [|a [|b [|c [|? ?]]]] eqn:Hslice; cbn in Hlen; try lia.
  by apply py_slice_window in Hslice as (_ & -> & -> & ->); [| lia].
Qed.

(** X26: [find_barrier] returns a barrier, and opens the energies file
    only, when the grid is strictly increasing and at least as long as the
    curve, no two neighbouring energies are equal, and some sample inside
    the band is higher than both its neighbours. *)
Theorem find_barrier_returns env root_path J K sym grid energies i :
  files env !! energies_path_of root_path J K sym = Some (Table energies) →
  Sorted Qclt grid → (length energies ≤ length grid)%nat →
  Sorted (λ a b, a ≠ b) energies →
  (1 ≤ i ∧ i + 1 < length energies)%nat →
  (at_index energies (i - 1) < at_index energies i)%Qc →
  (at_index energies (i + 1) < at_index energies i)%Qc →
  (of_int (-5000) ≤ at_index energies i)%Qc → (at_index energies i ≤ of_int 5000)%Qc →
  ∃ barrier,
    find_barrier root_path J K sym grid env
    = ([energies_path_of root_path J K sym], Ok barrier).
Proof.
  intros Hfile Hgrid Hlen Hdistinct Hi Hrise Hfall Hmin Hmax.
  rewrite (find_barrier_found _ _ _ _ _ _ _ Hfile).
  pose proof (find_peaks_complete energies _ _ i Hi Hrise Hfall Hmin Hmax) as Hin.
  destruct (find_peaks energies _ _) as [|p peaks] eqn:Hpeaks; [by apply elem_of_nil in Hin |].
  assert (p ∈ find_peaks energies (of_int (-5000)) (of_int 5000)) as Hp
    by (rewrite Hpeaks; left).
  apply find_peaks_peak in Hp as (Hbounds & _ & Hleft & Hright & _).
  cbn [py_get lookup list_lookup mbind result_bind].
  rewrite !py_slice_window_eq by lia.
  destruct (interpolate_energies_2d_returns
              (at_index grid (p - 1)) (at_index grid p) (at_index grid (p + 1))
              (at_index energies (p - 1)) (at_index energies p) (at_index energies (p + 1)))
    as [barrier ->]; [| | | | by exists barrier].
  - apply (Sorted_at_index Qclt); [exact Hgrid | lia].
  - apply (Sorted_at_index Qclt); [exact Hgrid | lia].
  - destruct (Qcle_lt_or_eq _ _ Hleft) as [Hlt | Heq]; [exact Hlt |].
    pose proof (Sorted_adjacent _ energies (p - 1) Hdistinct ltac:(lia)) as Hne.
    replace (p - 1 + 1)%nat with p in Hne by lia. by destruct Hne.
  - destruct (Qcle_lt_or_eq _ _ Hright) as [Hlt | Heq]; [exact Hlt |].
    pose proof (Sorted_adjacent _ energies p Hdistinct ltac:(lia)) as Hne.
    by destruct Hne.
Qed.

Lemma find_barrier_no_peak_witness :
  let energies := of_int <$> [1; 2; 2; 3] in
  let env := Environment ["."] {[ energies_path_of ["root"] 4 2 0 := Table energies ]} in
  files env !! energies_path_of ["root"] 4 2 0 = Some (Table energies)
  ∧ (2 ≤ length energies)%nat
  ∧ (Sorted Qcle energies ∨ Sorted (flip Qcle) energies
     ∨ Forall (λ y, y < of_int (-5000) ∨ of_int 5000 < y)%Qc energies)
  ∧ find_barrier ["root"] 4 2 0 (of_int <$> [1; 2; 3; 4]) env
    = ([energies_path_of ["root"] 4 2 0], Err IndexError).
Proof.
  intros energies env.
  assert (files env !! energies_path_of ["root"] 4 2 0 = Some (Table energies)) as Hfile
    by apply lookup_singleton_eq.
  assert (Sorted Qcle energies ∨ Sorted (flip Qcle) energies
          ∨ Forall (λ y, y < of_int (-5000) ∨ of_int 5000 < y)%Qc energies) as Hshape
    by (left; repeat constructor; by_evaluation).
  assert (2 ≤ length energies)%nat as Hrows by (cbn; lia).
  split; [exact Hfile |]. split; [exact Hrows |]. split; [exact Hshape |].
  exact (find_barrier_no_peak env ["root"] 4 2 0 (of_int <$> [1; 2; 3; 4]) energies
           Hfile Hrows Hshape).
Defined.

Lemma find_barrier_returns_witness :
  let grid := of_int <$> [1; 2; 3; 4; 5] in
  let energies := of_int <$> [0; 1; 5; 2; 0] in
  let env := Environment ["."] {[ energies_path_of ["root"] 4 2 0 := Table energies ]} in
  files env !! energies_path_of ["root"] 4 2 0 = Some (Table energies)
  ∧ Sorted Qclt grid
  ∧ (length energies ≤ length grid)%nat
  ∧ Sorted (λ a b, a ≠ b) energies
  ∧ (1 ≤ 2 ∧ 2 + 1 < length energies)%nat
  ∧ (at_index energies (2 - 1) < at_index energies 2)%Qc
  ∧ (at_index energies (2 + 1) < at_index energies 2)%Qc
  ∧ (of_int (-5000) ≤ at_index energies 2)%Qc
  ∧ (at_index energies 2 ≤ of_int 5000)%Qc
  ∧ ∃ barrier,
      find_barrier ["root"] 4 2 0 grid env
      = ([energies_path_of ["root"] 4 2 0], Ok barrier).
Proof.
  intros grid energies env.
  assert (files env !! energies_path_of ["root"] 4 2 0 = Some (Table energies)) as Hfile
    by apply lookup_singleton_eq.
  assert (Sorted Qclt grid) as Hgrid by (repeat constructor; by_evaluation).
  assert (length energies ≤ length grid)%nat as Hlen by (cbn; lia).
  assert (Sorted (λ a b, a ≠ b) energies) as Hdistinct by (repeat constructor; by_evaluation).
  assert (1 ≤ 2 ∧ 2 + 1 < length energies)%nat as Hi by (cbn; lia).
  assert (at_index energies (2 - 1) < at_index energies 2)%Qc as Hrise by by_evaluation.
  assert (at_index energies (2 + 1) < at_index energies 2)%Qc as Hfall by by_evaluation.
  assert (of_int (-5000) ≤ at_index energies 2)%Qc as Hmin by by_evaluation.
  assert (at_index energies 2 ≤ of_int 5000)%Qc as Hmax by by_evaluation.
  repeat (split; [assumption |]).
  exact (find_barrier_returns env ["root"] 4 2 0 grid energies 2
           Hfile Hgrid Hlen Hdistinct Hi Hrise Hfall Hmin Hmax).
Defined.

End maxima.
